(** * Zygosity: filters over a VCF table and genotype counting

    A shallow embedding of [filteration.py] and of the counting and
    orchestration parts of [zygosity.py], with the properties of the
    filter chain and of the zygosity counter proved over it.

    Modelling conventions.
    - A pandas DataFrame is a list of typed rows plus the names of the
      columns that follow INFO.  Every column has dtype object, as the
      loader leaves them (the header row is promoted from the data).  A
      cell of a column after INFO is a string or missing (NaN): the
      counter's [x.split] fails on a missing cell and on nothing else.
      The eight fixed fields are strings: in the filters a missing CHROM,
      POS or INFO behaves as the empty string does (no match, no integer)
      and a missing FILTER as a string different from the selected value.
    - Python floats are read as exact rationals ([Q]) and numbers are
      compared by value: a decimal token stands for its exact value, not
      for the nearest double, and a threshold is finite.  [astype(int)] is
      the 64-bit [int64].
    - A string is a sequence of characters below U+0100.  In that range
      [\d] is [0-9]; [str.isspace] and the spaces that [int()] skips are
      the sets given in [Str].
    - [print] is an output event; exceptions are the [Raise] results.
    - [calc_zygosity] is embedded for [include_info = None] and
      [output_file = False] (the defaults of the command line): adding INFO
      columns and writing files are left out.  The Python function returns
      nothing; here it returns the two values it builds, prints and writes:
      the table and the dict [variants]. *)

From Stdlib Require Import ZArith QArith String Ascii List Bool Lia.
From stdpp Require Import base list strings gmap.

Local Open Scope string_scope.
Local Open Scope Z_scope.

(** ** Strings, as Python and [re] treat them *)

Module Str.

Definition is_digit (c : ascii) : bool :=
  let n := nat_of_ascii c in (48 <=? n)%nat && (n <=? 57)%nat.

(** [str.isspace] on one character: the ASCII white space, the separators
    U+001C to U+001F, NEL (U+0085) and the no-break space (U+00A0). *)
Definition is_space (c : ascii) : bool :=
  let n := nat_of_ascii c in
  ((9 <=? n)%nat && (n <=? 13)%nat) || ((28 <=? n)%nat && (n <=? 32)%nat)
  || (n =? 133)%nat || (n =? 160)%nat.

(** The white space that [int()] skips at both ends: as [str.isspace], but
    for the separators U+001C to U+001F, which it takes as characters of
    the literal. *)
Definition is_int_space (c : ascii) : bool :=
  let n := nat_of_ascii c in
  ((9 <=? n)%nat && (n <=? 13)%nat) || (n =? 32)%nat
  || (n =? 133)%nat || (n =? 160)%nat.

Definition digit_val (c : ascii) : Z := Z.of_nat (nat_of_ascii c) - 48.

Fixpoint digits_acc (acc : Z) (s : string) : Z :=
  match s with
  | EmptyString => acc
  | String c r => digits_acc (10 * acc + digit_val c) r
  end.

(** The value of a run of decimal digits. *)
Definition digits_value (s : string) : Z := digits_acc 0 s.

Fixpoint all_digits (s : string) : bool :=
  match s with
  | EmptyString => true
  | String c r => is_digit c && all_digits r
  end.

Definition is_empty (s : string) : bool :=
  match s with EmptyString => true | _ => false end.

Fixpoint lstrip (s : string) : string :=
  match s with
  | EmptyString => EmptyString
  | String c r => if is_space c then lstrip r else s
  end.

Fixpoint rstrip (s : string) : string :=
  match s with
  | EmptyString => EmptyString
  | String c r =>
      let r' := rstrip r in
      if is_space c && is_empty r' then EmptyString else String c r'
  end.

(** [s.strip()] *)
Definition strip (s : string) : string := rstrip (lstrip s).

(** [s.split(sep)] for a one-character separator: never the empty list. *)
Fixpoint split (sep : ascii) (s : string) : list string :=
  match s with
  | EmptyString => [EmptyString]
  | String c r =>
      if Ascii.eqb c sep then EmptyString :: split sep r
      else match split sep r with
           | h :: t => String c h :: t
           | [] => [String c EmptyString]
           end
  end.

(** [s.startswith(p)] *)
Fixpoint startswith (p s : string) : bool :=
  match p, s with
  | EmptyString, _ => true
  | String a p', String b s' => Ascii.eqb a b && startswith p' s'
  | String _ _, EmptyString => false
  end.

(** [sub in s] *)
Fixpoint contains (sub s : string) : bool :=
  startswith sub s ||
  match s with
  | EmptyString => false
  | String _ r => contains sub r
  end.

Fixpoint strip_prefix (p s : string) : option string :=
  match p, s with
  | EmptyString, _ => Some s
  | String a p', String b s' => if Ascii.eqb a b then strip_prefix p' s' else None
  | String _ _, EmptyString => None
  end.

Fixpoint take_while (f : ascii -> bool) (s : string) : string :=
  match s with
  | EmptyString => EmptyString
  | String c r => if f c then String c (take_while f r) else EmptyString
  end.

(** The pattern [lit(cls+)] tried at the start of [s]: the literal, then
    the longest non-empty run of characters of the class. *)
Definition match_here (lit : string) (cls : ascii -> bool) (s : string)
  : option string :=
  match strip_prefix lit s with
  | Some rest =>
      let run := take_while cls rest in
      if is_empty run then None else Some run
  | None => None
  end.

(** [re.search(lit(cls+), s)]: the group of the leftmost match. *)
Fixpoint re_search (lit : string) (cls : ascii -> bool) (s : string)
  : option string :=
  match match_here lit cls s with
  | Some g => Some g
  | None =>
      match s with
      | EmptyString => None
      | String _ r => re_search lit cls r
      end
  end.

(** The body of a decimal integer literal: digits, single underscores
    allowed between digits only. *)
Fixpoint int_body (after_digit : bool) (s : string) : bool :=
  match s with
  | EmptyString => after_digit
  | String c r =>
      if is_digit c then int_body true r
      else if Ascii.eqb c "_" then after_digit && int_body false r
      else false
  end.

Fixpoint drop_underscores (s : string) : string :=
  match s with
  | EmptyString => EmptyString
  | String c r =>
      if Ascii.eqb c "_" then drop_underscores r else String c (drop_underscores r)
  end.

Fixpoint int_lstrip (s : string) : string :=
  match s with
  | EmptyString => EmptyString
  | String c r => if is_int_space c then int_lstrip r else s
  end.

Fixpoint int_rstrip (s : string) : string :=
  match s with
  | EmptyString => EmptyString
  | String c r =>
      let r' := int_rstrip r in
      if is_int_space c && is_empty r' then EmptyString else String c r'
  end.

(** The most digits that [int()] converts (the default of
    [sys.set_int_max_str_digits]); sign and underscores do not count. *)
Definition int_max_str_digits : Z := 4300.

(** [int(s)]: [None] stands for ValueError. *)
Definition py_int (s : string) : option Z :=
  let t := int_rstrip (int_lstrip s) in
  let '(sign, body) :=
    match t with
    | String "+" r => (1, r)
    | String "-" r => (-1, r)
    | _ => (1, t)
    end in
  let digits := drop_underscores body in
  if int_body false body
     && (Z.of_nat (String.length digits) <=? int_max_str_digits)
  then Some (sign * digits_value digits)
  else None.

(** [float(s)] on a token of the class [[\d.]]: digits with at most one
    dot and at least one digit; [None] stands for ValueError. *)
Definition py_float (s : string) : option Q :=
  match split "." s with
  | [a] =>
      if all_digits a && negb (is_empty a) then Some (inject_Z (digits_value a))
      else None
  | [a; b] =>
      if all_digits a && all_digits b && negb (is_empty a && is_empty b)
      then Some (inject_Z (digits_value a)
                 + inject_Z (digits_value b)
                   / inject_Z (10 ^ Z.of_nat (String.length b)))%Q
      else None
  | _ => None
  end.

End Str.

(** ** Python values and results *)

Inductive exn : Type := ValueError | OverflowError | KeyError | AttributeError.

Inductive result (A : Type) : Type :=
| Ok (a : A)
| Raise (e : exn).
Arguments Ok {A} a.
Arguments Raise {A} e.

(** A Python number: the default threshold is the int [10], a supplied one
    is a float. *)
Inductive num : Type := NInt (z : Z) | NFloat (q : Q).

Definition num_Q (n : num) : Q :=
  match n with NInt z => inject_Z z | NFloat q => q end.

(** The values a chromosome parameter can take. *)
Inductive pyval : Type :=
| PyNone
| PyInt (z : Z)
| PyFloat (q : Q)
| PyStr (s : string).

Definition Qgtb (a b : Q) : bool :=
  match (a ?= b)%Q with Gt => true | _ => false end.

(** [x == v] for an int64 [x]: a number is compared by value, anything
    else is unequal. *)
Definition int_eq_pyval (x : Z) (v : pyval) : bool :=
  match v with
  | PyInt z => x =? z
  | PyFloat q => Qeq_bool (inject_Z x) q
  | PyStr _ | PyNone => false
  end.

(** ** The table *)

Record VariantRecord : Type := {
  CHROM : string;
  POS : string;
  ID : string;
  REF : string;
  ALT : string;
  QUAL : string;
  FILTER : string;
  INFO : string;
  cells : list (option string)
    (* the cells of the columns after INFO; [None] is a missing cell *)
}.

Record DataFrame : Type := {
  columns : list string;   (* names of the columns after INFO *)
  rows : list VariantRecord
}.

Definition fixed_columns : list string :=
  ["#CHROM"; "POS"; "ID"; "REF"; "ALT"; "QUAL"; "FILTER"; "INFO"].

(** [df.columns] *)
Definition df_columns (df : DataFrame) : list string :=
  (fixed_columns ++ columns df)%list.

Definition row_cells (r : VariantRecord) : list (option string) :=
  (map Some [CHROM r; POS r; ID r; REF r; ALT r; QUAL r; FILTER r; INFO r]
   ++ cells r)%list.

(** [df[mask]]: the rows at which the boolean mask is true. *)
Fixpoint boolean_index {A : Type} (mask : list bool) (l : list A) : list A :=
  match mask, l with
  | b :: mask', x :: l' =>
      if b then x :: boolean_index mask' l' else boolean_index mask' l'
  | _, _ => []
  end.

Definition df_select (df : DataFrame) (mask : list bool) : DataFrame :=
  {| columns := columns df; rows := boolean_index mask (rows df) |}.

(** [df.shape[0] == 0] *)
Definition df_empty (df : DataFrame) : bool :=
  match rows df with [] => true | _ => false end.

(** ** Output and exceptions *)

Inductive out : Type :=
| OStr (s : string)                     (* print(s) *)
| ONum (label : string) (n : num)       (* print(label + str(n)) *)
| OVal (label : string) (v : pyval)     (* print(label + str(v)) *)
| ORange (label : string) (l : list Z)  (* print(label + '-'.join(...)) *)
| OCount (key : string) (n : Z)         (* print(key + ': ' + str(n)) *)
| OTable (df : DataFrame).              (* print(df) *)

(** A computation prints, then returns or raises. *)
Definition M (A : Type) : Type := (list out * result A)%type.

Definition raise {A} (e : exn) : M A := ([], Raise e).
Definition print (o : out) : M unit := ([o], Ok tt).

#[global] Instance M_ret : MRet M := fun A a => ([], Ok a).

#[global] Instance M_bind : MBind M := fun A B f m =>
  match m with
  | (l, Ok a) => let '(l', r) := f a in ((l ++ l')%list, r)
  | (l, Raise e) => (l, Raise e)
  end.

(** [try: m except ValueError: h] *)
Definition except_ValueError {A} (m : M A) (h : M A) : M A :=
  match m with
  | (l, Raise ValueError) => let '(l', r) := h in ((l ++ l')%list, r)
  | _ => m
  end.

Definition lift {A} (r : result A) : M A := ([], r).

Definition when (b : bool) (m : M unit) : M unit := if b then m else mret tt.

(** What was printed, and what was returned. *)
Definition output {A} (m : M A) : list out := fst m.
Definition returned {A} (m : M A) : result A := snd m.

Fixpoint mapM {A B} (f : A -> result B) (l : list A) : result (list B) :=
  match l with
  | [] => Ok []
  | x :: l' =>
      match f x with
      | Raise e => Raise e
      | Ok y =>
          match mapM f l' with
          | Raise e => Raise e
          | Ok ys => Ok (y :: ys)
          end
      end
  end.

(** ** Conversions of a column *)

Definition int64_min : Z := - 2 ^ 63.
Definition int64_max : Z := 2 ^ 63 - 1.

Definition to_int64 (z : Z) : result Z :=
  if (int64_min <=? z) && (z <=? int64_max) then Ok z else Raise OverflowError.

(** One element of [Series.astype(float)] after [str.extract]: a row
    without a match is NaN ([None]) and stays NaN; a token that is not a
    float literal raises. *)
Definition astype_float (x : option string) : result (option Q) :=
  match x with
  | None => Ok None
  | Some s =>
      match Str.py_float s with
      | Some q => Ok (Some q)
      | None => Raise ValueError
      end
  end.

(** One element of [Series.astype(int)]: NaN cannot become an integer. *)
Definition astype_int (x : option string) : result Z :=
  match x with
  | None => Raise ValueError
  | Some s =>
      match Str.py_int s with
      | Some z => to_int64 z
      | None => Raise ValueError
      end
  end.

(** [x > t] on a float element: false on NaN. *)
Definition float_gt (x : option Q) (t : Q) : bool :=
  match x with
  | Some q => Qgtb q t
  | None => false
  end.

Definition is_digit_or_dot (c : ascii) : bool :=
  Str.is_digit c || Ascii.eqb c ".".

Definition blank_lines : string := String "010" (String "010" "").

(** ** filteration.py *)

Module filteration.

Definition extract_AF (r : VariantRecord) : option string :=
  Str.re_search "AF=" is_digit_or_dot (INFO r).

Definition extract_DP (r : VariantRecord) : option string :=
  Str.re_search "DP=" Str.is_digit (INFO r).

Definition extract_chr (r : VariantRecord) : option string :=
  Str.re_search "chr" Str.is_digit (CHROM r).

Definition filter_af (df : DataFrame) (af_threshold : Q) (verbosity : bool)
  : M DataFrame :=
  if Qle_bool 0 af_threshold && Qle_bool af_threshold 1 then
    af ← lift (mapM astype_float (map extract_AF (rows df)));
    let df_filtered_by_af :=
      df_select df (map (fun x => float_gt x af_threshold) af) in
    (if df_empty df_filtered_by_af then
       print (OStr "WARNING: The VCF file does not contain any rows that accept allele frequency threshold")
     else
       when verbosity (
         print (ONum "allele frequency (AF) = " (NFloat af_threshold));;
         print (OStr "The output of filtration according to the allele frequency (AF) is shown here: ");;
         print (OTable df_filtered_by_af);;
         print (OStr blank_lines)));;
    mret df_filtered_by_af
  else
    print (OStr "WARNING: The allele frequency (AF) is not between 0 and 1. Therefore, this filtration does not apply!");;
    mret df.

(** [not dp_threshold] holds for [None] and for a zero. *)
Definition dp_falsy (dp_threshold : option Q) : bool :=
  match dp_threshold with
  | None => true
  | Some q => Qeq_bool q 0
  end.

Definition dp_negative (dp_threshold : option Q) : bool :=
  match dp_threshold with
  | None => false
  | Some q => Qgtb 0 q
  end.

(** The threshold that is used: the [if not ...: / elif ... < 0:] block. *)
Definition substitute_default (dp_threshold : option Q) : M num :=
  if dp_falsy dp_threshold then
    print (OStr "WARNING: The depth threshold was not specified. The filtering process will proceed with a default depth value of 10.");;
    mret (NInt 10)
  else if dp_negative dp_threshold then
    print (OStr "WARNING: The depth threshold is negative. Therefore, The filtering process will proceed with a default depth value of 10.");;
    mret (NInt 10)
  else
    mret (match dp_threshold with Some q => NFloat q | None => NInt 10 end).

Definition filter_dp (df : DataFrame) (dp_threshold : option Q) (verbosity : bool)
  : M DataFrame :=
  dp_threshold ← substitute_default dp_threshold;
  dp ← lift (mapM astype_float (map extract_DP (rows df)));
  let df_filtered_by_dp :=
    df_select df (map (fun x => float_gt x (num_Q dp_threshold)) dp) in
  (if df_empty df_filtered_by_dp then
     print (OStr "WARNING: The VCF file does not contain any rows that accept depth threshold")
   else
     when verbosity (
       print (ONum "depth threshold = " dp_threshold);;
       print (OStr "The output of filtration according to the depth threshold is shown here: ");;
       print (OTable df_filtered_by_dp);;
       print (OStr blank_lines)));;
  mret df_filtered_by_dp.

Definition filter_chr (df : DataFrame) (selected_chr : pyval) (verbosity : bool)
  : M DataFrame :=
  chr ← lift (mapM astype_int (map extract_chr (rows df)));
  let df_filtered_by_chr :=
    df_select df (map (fun x => int_eq_pyval x selected_chr) chr) in
  (if df_empty df_filtered_by_chr then
     print (OStr "WARNING: No rows exist in the VCF file for selected chromosome")
   else
     when verbosity (
       print (OVal "chromosome = " selected_chr);;
       print (OStr "The output of filtration according to the chromosome is shown here: ");;
       print (OTable df_filtered_by_chr);;
       print (OStr blank_lines)));;
  mret df_filtered_by_chr.

(** [[int(val.strip()) for val in selected_pos_range.split('-')]] *)
Definition parse_range (selected_pos_range : string) : result (list Z) :=
  mapM (fun val => match Str.py_int (Str.strip val) with
                   | Some z => Ok z
                   | None => Raise ValueError
                   end)
       (Str.split "-" selected_pos_range).

Definition filter_position (df : DataFrame) (selected_pos_range : string)
  (verbosity : bool) : M DataFrame :=
  except_ValueError
    (selected_pos_range ← lift (parse_range selected_pos_range);
     match selected_pos_range with
     | [lo; hi] =>
         pos ← lift (mapM (fun r => astype_int (Some (POS r))) (rows df));
         let df_filtered_by_pos :=
           df_select df (map (fun p => (p >? lo) && (p <? hi)) pos) in
         (if df_empty df_filtered_by_pos then
            print (OStr "WARNING: No rows exist in the VCF file for selected position range")
          else
            when verbosity (
              print (ORange "position range = " selected_pos_range);;
              print (OStr "The output of filtration according to the position range is shown here: ");;
              print (OTable df_filtered_by_pos);;
              print (OStr blank_lines)));;
         mret df_filtered_by_pos
     | _ =>
         print (OStr "WARNING: the position range is wrong! Therefore, this filtration does not apply!");;
         mret df
     end)
    (print (OStr "Error: The position range should consist of integers only. Therefore, this filtration does not apply!");;
     mret df).

(** [selected_val in df.FILTER.values] *)
Definition in_FILTER (selected_val : string) (df : DataFrame) : bool :=
  existsb (fun r => String.eqb (FILTER r) selected_val) (rows df).

Definition include_filter (df : DataFrame) (selected_val : string)
  (verbosity : bool) : M DataFrame :=
  when (negb (in_FILTER selected_val df))
    (print (OStr "WARNING: This value does not exist in the FILTER columns for including it!"));;
  let df_filtered_by_filter_col :=
    df_select df (map (fun r => String.eqb (FILTER r) selected_val) (rows df)) in
  when verbosity (
    print (OStr ("included filter = " ++ selected_val));;
    print (OStr "The output of filtration according to the included filter is shown here: ");;
    print (OTable df_filtered_by_filter_col);;
    print (OStr blank_lines));;
  mret df_filtered_by_filter_col.

Definition exclude_filter (df : DataFrame) (selected_val : string)
  (verbosity : bool) : M DataFrame :=
  when (negb (in_FILTER selected_val df))
    (print (OStr "WARNING: This value does not exist in the FILTER columns for excluding it!"));;
  let df_filtered_by_filter_col :=
    df_select df (map (fun r => negb (String.eqb (FILTER r) selected_val)) (rows df)) in
  when verbosity (
    print (OStr ("Excluded filter = " ++ selected_val));;
    print (OStr "The output of filtration according to the excluded filter is shown here: ");;
    print (OTable df_filtered_by_filter_col);;
    print (OStr blank_lines));;
  mret df_filtered_by_filter_col.

End filteration.

(** ** zygosity.py *)

Module zygosity.

(** The positions of the columns that carry a label. *)
Fixpoint label_positions (i : nat) (names : list string) (label : string)
  : list nat :=
  match names with
  | [] => []
  | n :: names' =>
      if String.eqb n label then i :: label_positions (S i) names' label
      else label_positions (S i) names' label
  end.

(** The column at a position, top to bottom; a row that is too short has
    a missing cell there. *)
Definition column_at (df : DataFrame) (i : nat) : list (option string) :=
  map (fun r => nth i (row_cells r) None) (rows df).

(** [df[labels]] for a list of labels: for each label in turn, every
    column that carries it; KeyError when a label names no column. *)
Definition getitem (df : DataFrame) (labels : list string)
  : result (list (list (option string))) :=
  match mapM (fun label =>
                match label_positions 0 (df_columns df) label with
                | [] => Raise KeyError
                | ps => Ok ps
                end) labels with
  | Ok pss => Ok (map (column_at df) (concat pss))
  | Raise e => Raise e
  end.

(** [lambda x: g in x.split(':')[0]] *)
Definition genotype_in (g : string) (x : string) : bool :=
  Str.contains g (hd "" (Str.split ":" x)).

Definition bool_Z (b : bool) : Z := if b then 1 else 0.

(** [.sum()] of a boolean column. *)
Definition column_sum (f : string -> bool) (col : list string) : Z :=
  foldr (fun x acc => bool_Z (f x) + acc) 0 col.

(** [frame.applymap(f).sum().sum()] *)
Definition applymap_sum_sum (f : string -> bool) (frame : list (list string)) : Z :=
  foldr (fun col acc => column_sum f col + acc) 0 frame.

(** [df.columns.str.startswith('SAMPLE') & (df.columns != sample_name)] on
    one column name. *)
Definition to_drop (sample_name : string) (col : string) : bool :=
  Str.startswith "SAMPLE" col && negb (String.eqb col sample_name).

(** [df.drop(columns=cols_to_drop)]: none of the eight fixed names starts
    with SAMPLE, so only columns after INFO can go. *)
Definition drop_other_samples (df : DataFrame) (sample_name : string) : DataFrame :=
  let keep := map (fun c => negb (to_drop sample_name c)) (columns df) in
  {| columns := boolean_index keep (columns df);
     rows := map (fun r =>
               {| CHROM := CHROM r; POS := POS r; ID := ID r; REF := REF r;
                  ALT := ALT r; QUAL := QUAL r; FILTER := FILTER r;
                  INFO := INFO r; cells := boolean_index keep (cells r) |})
               (rows df) |}.

(** [if sample_name:] *)
Definition str_truthy (s : option string) : bool :=
  match s with
  | Some s => negb (Str.is_empty s)
  | None => false
  end.

(** [if af:] *)
Definition float_truthy (x : option Q) : bool :=
  match x with
  | Some q => negb (Qeq_bool q 0)
  | None => false
  end.

(** One of the four assignments to [variants]: index the sample columns,
    then count. *)
Definition count (frame : result (list (list string))) (g : string) : M Z :=
  frame ← lift frame; mret (applymap_sum_sum (genotype_in g) frame).

(** The table after the optional [drop], and the columns that the four
    assignments index: [df[[sample_name]]] or [df[sample_columns]]. *)
Definition indexed (df : DataFrame) (sample_name : option string)
  : DataFrame * result (list (list (option string))) :=
  if str_truthy sample_name then
    let name := default "" sample_name in
    let df := drop_other_samples df name in
    (df, getitem df [name])
  else
    let sample_columns := List.filter (Str.startswith "SAMPLE") (df_columns df) in
    (df, getitem df sample_columns).

(** A cell as the lambdas read it: [x.split] is there on a string, and
    raises AttributeError on a missing cell. *)
Definition as_str (x : option string) : result string :=
  match x with
  | Some s => Ok s
  | None => Raise AttributeError
  end.

(** The indexed columns, read cell by cell as [applymap] does. *)
Definition selection (df : DataFrame) (sample_name : option string)
  : DataFrame * result (list (list string)) :=
  let '(df, frame) := indexed df sample_name in
  (df, match frame with
       | Ok frame => mapM (mapM as_str) frame
       | Raise e => Raise e
       end).

Definition calc_zygosity (df : DataFrame) (sample_name : option string)
  (verbosity : bool) : M (DataFrame * gmap string Z) :=
  let variants : gmap string Z := ∅ in
  let '(df, frame) := selection df sample_name in
  n11 ← count frame "1/1"; let variants := <["g 1/1" := n11]> variants in
  n10 ← count frame "1/0"; let variants := <["g 1/0" := n10]> variants in
  n01 ← count frame "0/1"; let variants := <["g 0/1" := n01]> variants in
  n00 ← count frame "0/0"; let variants := <["g 0/0" := n00]> variants in
  when verbosity (
    print (OStr "Final filtered VCF file:");;
    print (OTable df);;
    print (OStr (String "010" ""));;
    print (OStr "Zygosity breakdown: ");;
    print (OCount "g 1/1" n11);;
    print (OCount "g 1/0" n10);;
    print (OCount "g 0/1" n01);;
    print (OCount "g 0/0" n00));;
  print (OStr "Process has been successfully done!");;
  mret (df, variants).

(** The part of [process_vcf_file] after the table is loaded. *)
Definition process_vcf_file (df_vcf : DataFrame) (sample : option string)
  (depth af : option Q)
  (chromosome position_range include_filter exclude_filter : option string)
  (verbosity : bool) : M (DataFrame * gmap string Z) :=
  df_vcf ← filteration.filter_dp df_vcf depth verbosity;
  df_vcf ← (if float_truthy af
             then filteration.filter_af df_vcf (default 0%Q af) verbosity
             else mret df_vcf);
  df_vcf ← (if str_truthy chromosome
             then filteration.filter_chr df_vcf (PyStr (default "" chromosome)) verbosity
             else mret df_vcf);
  df_vcf ← (if str_truthy position_range
             then filteration.filter_position df_vcf (default "" position_range) verbosity
             else mret df_vcf);
  df_vcf ← (if str_truthy include_filter
             then filteration.include_filter df_vcf (default "" include_filter) verbosity
             else mret df_vcf);
  df_vcf ← (if str_truthy exclude_filter
             then filteration.exclude_filter df_vcf (default "" exclude_filter) verbosity
             else mret df_vcf);
  calc_zygosity df_vcf sample verbosity.

End zygosity.

(** ** Evaluation on small tables *)

Definition mk_row (chrom pos flt info : string) (cs : list string) : VariantRecord :=
  {| CHROM := chrom; POS := pos; ID := "."; REF := "A"; ALT := "G"; QUAL := "50";
     FILTER := flt; INFO := info; cells := map Some cs |}.

Definition demo : DataFrame :=
  {| columns := ["FORMAT"; "SAMPLE1"; "SAMPLE2"];
     rows := [ mk_row "chr1" "1000" "PASS" "DP=30;AF=0.5" ["GT:AD"; "0/1:30,10"; "1/1:0,40"];
               mk_row "chr2" "2500" "LowQual" "DP=8;AF=0.05" ["GT:AD"; "0/0:40,0"; "./.:0,0"];
               mk_row "chr2" "5000" "PASS" "DP=12;AF=0.9" ["GT:AD"; "1/0:3,9"; "0/1:4,4"] ] |}.

(** ** Notions used in the statements *)

(** A block that only prints. *)
Definition prints (m : M unit) : Prop := returned m = Ok tt.

(** The table that keeps the rows satisfying [p], in their order. *)
Definition keep_rows (p : VariantRecord -> bool) (df : DataFrame) : DataFrame :=
  {| columns := columns df; rows := List.filter p (rows df) |}.

(** [df'] is an order-preserving selection of the rows of [df]. *)
Definition selection_of (df' df : DataFrame) : Prop :=
  columns df' = columns df /\ rows df' `sublist_of` rows df.

Definition get_or {A} (d : A) (r : result A) : A :=
  match r with Ok a => a | Raise _ => d end.

Definition converts {A} (r : result A) : Prop := exists a, r = Ok a.

(** The computation returns a value. *)
Definition returns {A} (m : M A) : Prop := exists a, returned m = Ok a.

(** The DP value of a row, when INFO has one. *)
Definition dp_value (r : VariantRecord) : option Q :=
  match filteration.extract_DP r with
  | Some d => Some (inject_Z (Str.digits_value d))
  | None => None
  end.

Definition dp_gt (t : Q) (r : VariantRecord) : bool := float_gt (dp_value r) t.

(** The AF value of a row, when INFO has one that is a number. *)
Definition af_value (r : VariantRecord) : option Q :=
  get_or None (astype_float (filteration.extract_AF r)).

Definition af_gt (t : Q) (r : VariantRecord) : bool := float_gt (af_value r) t.

(** The number after [chr] in CHROM, as an int64. *)
Definition chr_value (r : VariantRecord) : result Z :=
  astype_int (filteration.extract_chr r).

(** POS as an int64. *)
Definition pos_value (r : VariantRecord) : result Z :=
  astype_int (Some (POS r)).

Definition pos_between (lo hi : Z) (r : VariantRecord) : bool :=
  match pos_value r with
  | Ok p => (lo <? p) && (p <? hi)
  | Raise _ => false
  end.

(** [x.split(':')[0]]: the GT field of a cell. *)
Definition first_field (x : string) : string := hd "" (Str.split ":" x).

Definition genotypes : list string := ["1/1"; "1/0"; "0/1"; "0/0"].

(** The key of a genotype in [variants]. *)
Definition key (g : string) : string := "g " ++ g.

(** How many cells of the selected columns satisfy [p]. *)
Definition cells_where (p : string -> bool) (frame : list (list string)) : Z :=
  Z.of_nat (length (List.filter p (concat frame))).

(** A sample name, when one is given, names a column of the table. *)
Definition sample_known (df : DataFrame) (sample : option string) : Prop :=
  match sample with
  | Some name => name = "" \/ In name (df_columns df)
  | None => True
  end.

(** No cell of a counted column is missing. *)
Definition no_missing_cell (df : DataFrame) (sample : option string) : Prop :=
  forall frame, snd (zygosity.indexed df sample) = Ok frame ->
    Forall (Forall (fun x => x <> None)) frame.

(** Counting by literal equality of the GT field with the genotype. *)
Definition counts_literal_matches (df : DataFrame) (sample : option string) : Prop :=
  forall df' variants frame,
    returned (zygosity.calc_zygosity df sample false) = Ok (df', variants) ->
    snd (zygosity.selection df sample) = Ok frame ->
    forall g, In g genotypes ->
      variants !! key g = Some (cells_where (fun x => String.eqb (first_field x) g) frame).

(** The counter returns a count map: the four genotype keys, counts that
    are not negative, and all of them 0 on a table without rows. *)
Definition returns_count_map (df : DataFrame) (sample : option string)
  (v : bool) : Prop :=
  exists df' (variants : gmap string Z),
    returned (zygosity.calc_zygosity df sample v) = Ok (df', variants)
    /\ dom variants = ({[ key "1/1"; key "1/0"; key "0/1"; key "0/0" ]} : gset string)
    /\ (forall k n, variants !! k = Some n -> 0 <= n)
    /\ (rows df = [] -> forall k n, variants !! k = Some n -> n = 0).

(** A triploid call in the only sample column. *)
Definition triploid : DataFrame :=
  {| columns := ["FORMAT"; "SAMPLE1"];
     rows := [ mk_row "chr1" "1000" "PASS" "DP=30;AF=0.5" ["GT:AD"; "0/1/1:12,20"] ] |}.

(** One variant of depth 5. *)
Definition shallow : DataFrame :=
  {| columns := ["FORMAT"; "SAMPLE1"];
     rows := [ mk_row "chr1" "1000" "PASS" "DP=5;AF=0.5" ["GT:AD"; "0/1:2,3"] ] |}.

(** A variant on chromosome 2 and one on chromosome X. *)
Definition with_chrX : DataFrame :=
  {| columns := ["FORMAT"; "SAMPLE1"];
     rows := [ mk_row "chr2" "1000" "PASS" "DP=30;AF=0.5" ["GT:AD"; "0/1:15,15"];
               mk_row "chrX" "2000" "PASS" "DP=30;AF=0.5" ["GT:AD"; "1/1:0,30"] ] |}.

(** A variant whose AF is the missing value of the VCF format. *)
Definition with_missing_AF : DataFrame :=
  {| columns := ["FORMAT"; "SAMPLE1"];
     rows := [ mk_row "chr1" "1000" "PASS" "DP=30;AF=0.9" ["GT:AD"; "0/1:15,15"];
               mk_row "chr1" "2000" "PASS" "DP=30;AF=." ["GT:AD"; "1/1:0,30"] ] |}.

(** Three variants, the last with a POS that is no integer. *)
Definition bad_POS : DataFrame :=
  {| columns := ["FORMAT"; "SAMPLE1"];
     rows := [ mk_row "chr1" "100" "PASS" "DP=30;AF=0.5" ["GT:AD"; "0/1:15,15"];
               mk_row "chr1" "9999" "PASS" "DP=30;AF=0.5" ["GT:AD"; "1/1:0,30"];
               mk_row "chr1" "abc" "PASS" "DP=30;AF=0.5" ["GT:AD"; "0/0:30,0"] ] |}.

(** Two variants, the second a line that stops before its sample field. *)
Definition with_missing_cell : DataFrame :=
  {| columns := ["FORMAT"; "SAMPLE1"];
     rows := [ mk_row "chr1" "1000" "PASS" "DP=30;AF=0.5" ["GT:AD"; "0/1:15,15"];
               {| CHROM := "chr1"; POS := "2000"; ID := "."; REF := "A"; ALT := "G";
                  QUAL := "50"; FILTER := "PASS"; INFO := "DP=30;AF=0.5";
                  cells := [Some "GT:AD"; None] |} ] |}.

Definition no_rows : DataFrame :=
  {| columns := ["FORMAT"; "SAMPLE1"; "SAMPLE2"]; rows := [] |}.

(** The four genotype cells of one sample column, one of them a missing
    call. *)
Definition four_calls : DataFrame :=
  {| columns := ["SAMPLE1"];
     rows := [ mk_row "chr1" "100" "PASS" "DP=40" ["0/1:30,10:40"];
               mk_row "chr1" "200" "PASS" "DP=40" ["1/1:0,40:40"];
               mk_row "chr1" "300" "PASS" "DP=40" ["0/0:40,0:40"];
               mk_row "chr1" "400" "PASS" "DP=40" ["./.:0,0:0"] ] |}.

(** One variant of allele frequency 0. *)
Definition af_zero : DataFrame :=
  {| columns := ["SAMPLE1"];
     rows := [ mk_row "chr1" "100" "PASS" "DP=40;AF=0.0" ["0/0:40,0:40"] ] |}.

(** How often a character occurs in a string. *)
Fixpoint count_char (c : ascii) (s : string) : nat :=
  match s with
  | EmptyString => O
  | String x r => if Ascii.eqb x c then S (count_char c r) else count_char c r
  end.

(** The row is on chromosome number [n]. *)
Definition on_chromosome (n : Z) (r : VariantRecord) : bool :=
  match chr_value r with
  | Ok z => z =? n
  | Raise _ => false
  end.

(** The text has no occurrence of the literal that a character of the
    class follows: the pattern [lit(cls+)] matches nowhere in it. *)
Definition no_match_in (lit : string) (cls : ascii -> bool) (k : string) : Prop :=
  forall pre d post, k = pre ++ lit ++ String d post -> cls d = false.

(** Every character of the string is of the class. *)
Fixpoint all_of (cls : ascii -> bool) (s : string) : bool :=
  match s with
  | EmptyString => true
  | String c r => cls c && all_of cls r
  end.

(** The string is empty or starts outside the class. *)
Definition ends_run (cls : ascii -> bool) (s : string) : bool :=
  match s with
  | EmptyString => true
  | String c _ => negb (cls c)
  end.

(** The count map with every genotype at 0. *)
Definition zero_counts : gmap string Z :=
  <[key "0/0" := 0]> (<[key "0/1" := 0]> (<[key "1/0" := 0]>
    (<[key "1/1" := 0]> ∅))).

(** Every GT field of the counted cells has at most three characters, as a
    diploid call with single-digit alleles has. *)
Definition short_GT_fields (frame : list (list string)) : Prop :=
  Forall (Forall (fun x => (String.length (first_field x) <= 3)%nat)) frame.

(** The lines that are printed whatever the verbosity flag: the warnings
    of the filters and the closing line of the counter. *)
Definition notices : list string :=
  [ "WARNING: The VCF file does not contain any rows that accept allele frequency threshold";
    "WARNING: The allele frequency (AF) is not between 0 and 1. Therefore, this filtration does not apply!";
    "WARNING: The depth threshold was not specified. The filtering process will proceed with a default depth value of 10.";
    "WARNING: The depth threshold is negative. Therefore, The filtering process will proceed with a default depth value of 10.";
    "WARNING: The VCF file does not contain any rows that accept depth threshold";
    "WARNING: No rows exist in the VCF file for selected chromosome";
    "WARNING: No rows exist in the VCF file for selected position range";
    "WARNING: the position range is wrong! Therefore, this filtration does not apply!";
    "Error: The position range should consist of integers only. Therefore, this filtration does not apply!";
    "WARNING: This value does not exist in the FILTER columns for including it!";
    "WARNING: This value does not exist in the FILTER columns for excluding it!";
    "Process has been successfully done!" ].

(** One of these lines, as opposed to a table, a parameter, a count or
    any other text. *)
Definition is_notice (o : out) : bool :=
  match o with
  | OStr s => existsb (String.eqb s) notices
  | _ => false
  end.

(** Nothing but these lines is printed. *)
Definition quiet {A} (m : M A) : Prop :=
  Forall (fun o => is_notice o = true) (output m).

(** The warning [w], printed when the table has no rows. *)
Definition no_rows_warning (w : string) (d : DataFrame) : list out :=
  if df_empty d then [OStr w] else [].

(** What the depth filter prints about its threshold: absent or zero,
    negative, or used as it is. *)
Definition default_notice (t : option Q) : list out :=
  match t with
  | None =>
      [OStr "WARNING: The depth threshold was not specified. The filtering process will proceed with a default depth value of 10."]
  | Some q =>
      if Qeq_bool q 0 then
        [OStr "WARNING: The depth threshold was not specified. The filtering process will proceed with a default depth value of 10."]
      else if Qgtb 0 q then
        [OStr "WARNING: The depth threshold is negative. Therefore, The filtering process will proceed with a default depth value of 10."]
      else []
  end.

(** ** The names of the output files

    [os.path] is the POSIX one. *)

Module os_path.

(** [(p[:i], p[i:])] for [i = p.rfind('/') + 1]. *)
Fixpoint split_at_last_slash (p : string) : string * string :=
  match p with
  | EmptyString => (EmptyString, EmptyString)
  | String c r =>
      let '(h, t) := split_at_last_slash r in
      if (0 <? count_char "/" r)%nat then (String c h, t)
      else if Ascii.eqb c "/" then (String c EmptyString, r)
      else (EmptyString, String c r)
  end.

(** [s.rstrip('/')] *)
Fixpoint rstrip_slash (s : string) : string :=
  match s with
  | EmptyString => EmptyString
  | String c r =>
      let r' := rstrip_slash r in
      if Ascii.eqb c "/" && Str.is_empty r' then EmptyString else String c r'
  end.

Definition basename (p : string) : string := snd (split_at_last_slash p).

Definition dirname (p : string) : string :=
  let head := fst (split_at_last_slash p) in
  if negb (Str.is_empty head) && negb (all_of (fun c => Ascii.eqb c "/") head)
  then rstrip_slash head
  else head.

End os_path.

(** [s.split(sub)[0]]: the text before the first occurrence of [sub], or
    all of [s]. *)
Fixpoint before (sub s : string) : string :=
  if Str.startswith sub s then EmptyString
  else match s with
       | EmptyString => EmptyString
       | String c r => String c (before sub r)
       end.

(** The two files that [calc_zygosity] writes when [output_file] is set:
    the filtered table and the genotype counts; [None] when the format is
    neither csv nor json, where it only prints a warning. *)
Definition output_files (vcf_file_path output_format : string)
  : option (string * string) :=
  let writing_path := os_path.dirname vcf_file_path in
  let file_name := before ".vcf" (os_path.basename vcf_file_path) in
  if String.eqb output_format "csv" then
    Some (writing_path ++ "/" ++ file_name ++ ".filtered.csv",
          writing_path ++ "/" ++ file_name ++ ".zygosity.csv")
  else if String.eqb output_format "json" then
    Some (writing_path ++ "/" ++ file_name ++ ".filtered.json",
          writing_path ++ "/" ++ file_name ++ ".zygosity.json")
  else None.
(** ** Running a computation *)

Section Running.
Context {A B : Type}.

Lemma returned_bind (m : M A) (f : A -> M B) :
  returned (m ≫= f) =
  match returned m with
  | Ok a => returned (f a)
  | Raise e => Raise e
  end.
Proof.
  destruct m as [l [a | e]]; simpl; [| reflexivity].
  unfold returned, mbind; simpl. destruct (f a); reflexivity.
Qed.

Lemma output_bind_Ok (m : M A) (f : A -> M B) (a : A) :
  returned m = Ok a ->
  output (m ≫= f) = (output m ++ output (f a))%list.
Proof.
  destruct m as [l r]; simpl; intros ->.
  unfold output, mbind; simpl. destruct (f a); reflexivity.
Qed.

Lemma returned_lift (r : result A) : returned (lift r) = r.
Proof. reflexivity. Qed.

Lemma returned_mret (a : A) : returned (mret a : M A) = Ok a.
Proof. reflexivity. Qed.
End Running.


Lemma prints_print o : prints (print o).
Proof. reflexivity. Qed.

Lemma prints_seq (m k : M unit) : prints m -> prints k -> prints (m ;; k).
Proof. unfold prints; intros Hm Hk. rewrite returned_bind, Hm. exact Hk. Qed.

Lemma prints_when b m : prints m -> prints (when b m).
Proof. destruct b; [trivial | reflexivity]. Qed.

Lemma prints_if (b : bool) (m k : M unit) :
  prints m -> prints k -> prints (if b then m else k).
Proof. destruct b; trivial. Qed.

Lemma returned_after_prints {B} (m : M unit) (k : M B) :
  prints m -> returned (m ;; k) = returned k.
Proof. unfold prints; intros Hm. rewrite returned_bind, Hm. reflexivity. Qed.

Create HintDb prints.
#[local] Hint Resolve prints_print prints_seq prints_when prints_if : prints.

(** ** Selecting rows *)

Section Selecting.
Context {A B : Type}.

Lemma boolean_index_map (f : A -> bool) (l : list A) :
  boolean_index (map f l) l = List.filter f l.
Proof.
  induction l as [| x l IH]; simpl; [reflexivity |].
  rewrite IH. reflexivity.
Qed.

Lemma boolean_index_map_map (g : A -> B) (f : B -> bool) (l : list A) :
  boolean_index (map f (map g l)) l = List.filter (fun x => f (g x)) l.
Proof. rewrite map_map. apply boolean_index_map. Qed.

Lemma boolean_index_sublist (mask : list bool) (l : list A) :
  boolean_index mask l `sublist_of` l.
Proof.
  revert l; induction mask as [| b mask IH]; intros [| x l]; simpl;
    try apply sublist_nil_l.
  destruct b; [apply sublist_skip | apply sublist_cons]; apply IH.
Qed.

Lemma boolean_index_all_false (mask : list bool) (l : list A) :
  Forall (fun b => b = false) mask -> boolean_index mask l = [].
Proof.
  intros H; revert l; induction H as [| b mask -> _ IH]; intros [| x l];
    simpl; auto.
Qed.

Lemma mapM_Ok (f : A -> result B) (g : A -> B) (l : list A) :
  Forall (fun x => f x = Ok (g x)) l -> mapM f l = Ok (map g l).
Proof.
  induction 1 as [| x l Hx _ IH]; simpl; [reflexivity |].
  rewrite Hx, IH. reflexivity.
Qed.

Lemma mapM_Ok_inv (f : A -> result B) (l : list A) (ys : list B) :
  mapM f l = Ok ys -> Forall2 (fun x y => f x = Ok y) l ys.
Proof.
  revert ys; induction l as [| x l IH]; simpl; intros ys H.
  - injection H as <-. constructor.
  - destruct (f x) as [y | e] eqn:Hx; [| discriminate].
    destruct (mapM f l) as [ys' | e]; [| discriminate].
    injection H as <-. constructor; auto.
Qed.

Lemma mapM_Raise (f : A -> result B) (l : list A) (x : A) (e : exn) :
  x ∈ l -> f x = Raise e -> exists e', mapM f l = Raise e'.
Proof.
  intros Hin Hx. induction Hin as [x l | x y l _ IH]; simpl.
  - rewrite Hx. exists e. reflexivity.
  - destruct (f y) as [b | e0]; [| exists e0; reflexivity].
    destruct (IH Hx) as [e' ->]. exists e'. reflexivity.
Qed.
End Selecting.



Lemma selection_of_refl df : selection_of df df.
Proof. split; reflexivity. Qed.

Lemma selection_of_select df mask : selection_of (df_select df mask) df.
Proof. split; [reflexivity | apply boolean_index_sublist]. Qed.

(** ** What the patterns capture *)

Module StrFacts.
Import Str.

Lemma is_digit_not_dot c : is_digit c = true -> Ascii.eqb c "." = false.
Proof.
  destruct c as [[] [] [] [] [] [] [] []]; vm_compute; congruence.
Qed.

Lemma split_dot_digits s : all_digits s = true -> split "." s = [s].
Proof.
  induction s as [| c s IH]; simpl; [reflexivity |].
  intros [Hc Hs]%andb_prop. rewrite (is_digit_not_dot c Hc), (IH Hs).
  reflexivity.
Qed.

Lemma take_while_digits s : all_digits (take_while is_digit s) = true.
Proof.
  induction s as [| c s IH]; simpl; [reflexivity |].
  destruct (is_digit c) eqn:Hc; simpl; [| reflexivity].
  rewrite Hc, IH. reflexivity.
Qed.

Lemma match_here_run lit cls s g :
  match_here lit cls s = Some g ->
  is_empty g = false /\ exists rest, g = take_while cls rest.
Proof.
  unfold match_here. destruct (strip_prefix lit s) as [rest |]; [| discriminate].
  destruct (is_empty (take_while cls rest)) eqn:He; [discriminate |].
  intros [= <-]. eauto.
Qed.

(** A captured group is a non-empty maximal run of the class. *)
Lemma re_search_run lit cls s g :
  re_search lit cls s = Some g ->
  is_empty g = false /\ exists rest, g = take_while cls rest.
Proof.
  induction s as [| c s IH]; simpl.
  - destruct (match_here lit cls "") eqn:Hm; [| discriminate].
    intros [= <-]. eapply match_here_run; eauto.
  - destruct (match_here lit cls (String c s)) eqn:Hm; [| exact IH].
    intros [= <-]. eapply match_here_run; eauto.
Qed.

Lemma py_float_digits g :
  all_digits g = true -> is_empty g = false ->
  py_float g = Some (inject_Z (digits_value g)).
Proof.
  intros Hd He. unfold py_float. rewrite (split_dot_digits g Hd), Hd, He.
  reflexivity.
Qed.

(** A group captured by [(\d+)] always converts to a float. *)
Lemma py_float_captured_digits lit s g :
  re_search lit is_digit s = Some g ->
  py_float g = Some (inject_Z (digits_value g)).
Proof.
  intros [He [rest ->]]%re_search_run.
  apply py_float_digits; [apply take_while_digits | exact He].
Qed.

Lemma startswith_app (p s : string) : startswith p (p ++ s) = true.
Proof.
  induction p as [| c p IH]; simpl; [reflexivity |].
  rewrite Ascii.eqb_refl. exact IH.
Qed.

Lemma startswith_inv (p s : string) :
  startswith p s = true -> exists post, s = p ++ post.
Proof.
  revert s; induction p as [| c p IH]; intros s; simpl.
  - exists s; reflexivity.
  - destruct s as [| d s]; [discriminate |].
    intros [Hc Hs]%andb_prop. apply Ascii.eqb_eq in Hc as <-.
    destruct (IH s Hs) as [post ->]. exists post; reflexivity.
Qed.

(** [contains] is Python's [in]: the needle occurs somewhere. *)
Lemma contains_spec (sub s : string) :
  contains sub s = true <-> exists pre post, s = pre ++ sub ++ post.
Proof.
  split.
  - induction s as [| c s IH]; simpl.
    + rewrite orb_false_r. intros [post ->]%startswith_inv.
      exists "", post; reflexivity.
    + intros [H | H]%orb_prop.
      * apply startswith_inv in H as [post ->]. exists "", post; reflexivity.
      * destruct (IH H) as (pre & post & ->).
        exists (String c pre), post; reflexivity.
  - intros (pre & post & ->). induction pre as [| c pre IH]; simpl.
    + destruct (sub ++ post) eqn:E; simpl; rewrite <- E, startswith_app;
        reflexivity.
    + rewrite IH. apply orb_true_r.
Qed.

End StrFacts.

(** ** Converting a whole column *)



Section Columns.
Context {A B C : Type}.

Lemma mapM_total (f : A -> result C) (d : C) (l : list A) :
  Forall (fun x => converts (f x)) l ->
  mapM f l = Ok (map (fun x => get_or d (f x)) l).
Proof.
  induction 1 as [| x l [y Hx] _ IH]; simpl; [reflexivity |].
  rewrite Hx, IH. reflexivity.
Qed.

Lemma mapM_map_total (f : B -> result C) (h : A -> B) (d : C) (l : list A) :
  Forall (fun x => converts (f (h x))) l ->
  mapM f (map h l) = Ok (map (fun x => get_or d (f (h x))) l).
Proof.
  induction 1 as [| x l [y Hx] _ IH]; simpl; [reflexivity |].
  rewrite Hx, IH. reflexivity.
Qed.

Lemma mapM_map_Raise (f : B -> result C) (h : A -> B) (l : list A) (x : A) e :
  x ∈ l -> f (h x) = Raise e -> exists e', mapM f (map h l) = Raise e'.
Proof.
  intros Hin Hx. apply (mapM_Raise f (map h l) (h x) e); [| exact Hx].
  apply list_elem_of_In, in_map, list_elem_of_In, Hin.
Qed.
End Columns.

Lemma Qgtb_true a b : Qgtb a b = true <-> (b < a)%Q.
Proof.
  unfold Qgtb. rewrite (Qgt_alt a b).
  destruct (a ?= b)%Q; split; congruence.
Qed.

Lemma float_gt_true x t : float_gt x t = true <-> exists q, x = Some q /\ (t < q)%Q.
Proof.
  destruct x as [q |]; simpl.
  - rewrite Qgtb_true. split; [eauto | intros (q' & [= <-] & H); exact H].
  - split; [discriminate | intros (q & [=] & _)].
Qed.

(** ** The depth filter *)

Section Depth.
Import filteration.



Lemma DP_converts r : astype_float (extract_DP r) = Ok (dp_value r).
Proof.
  unfold dp_value, extract_DP.
  destruct (Str.re_search "DP=" Str.is_digit (INFO r)) as [d |] eqn:E;
    simpl; [| reflexivity].
  rewrite (StrFacts.py_float_captured_digits _ _ _ E). reflexivity.
Qed.

Lemma DP_column (l : list VariantRecord) :
  mapM astype_float (map extract_DP l) = Ok (map dp_value l).
Proof.
  induction l as [| r l IH]; simpl; [reflexivity |].
  rewrite DP_converts, IH. reflexivity.
Qed.

Lemma filter_dp_returned df t v :
  returned (filter_dp df t v) =
  match returned (substitute_default t) with
  | Ok thr => Ok (keep_rows (dp_gt (num_Q thr)) df)
  | Raise e => Raise e
  end.
Proof.
  unfold filter_dp. rewrite returned_bind.
  destruct (returned (substitute_default t)) as [thr | e]; [| reflexivity].
  rewrite returned_bind, returned_lift, DP_column.
  rewrite returned_after_prints by auto 10 with prints.
  rewrite returned_mret. unfold df_select, keep_rows.
  rewrite boolean_index_map_map. reflexivity.
Qed.

Lemma substitute_default_absent :
  substitute_default None = ([OStr "WARNING: The depth threshold was not specified. The filtering process will proceed with a default depth value of 10."], Ok (NInt 10)).
Proof. reflexivity. Qed.

Lemma substitute_default_nonpositive q :
  (q <= 0)%Q ->
  exists notice, substitute_default (Some q) = ([OStr notice], Ok (NInt 10)).
Proof.
  intros Hq. unfold substitute_default, dp_falsy, dp_negative.
  destruct (Qeq_bool q 0) eqn:Hz; [eexists; reflexivity |].
  assert (Hneg : Qgtb 0 q = true).
  { apply Qgtb_true. apply Qle_lteq in Hq as [H | H]; [exact H |].
    apply Qeq_bool_iff in H. congruence. }
  rewrite Hneg. eexists; reflexivity.
Qed.

Lemma substitute_default_positive q :
  (0 < q)%Q -> substitute_default (Some q) = ([], Ok (NFloat q)).
Proof.
  intros Hq. unfold substitute_default, dp_falsy, dp_negative.
  destruct (Qeq_bool q 0) eqn:Hz.
  { apply Qeq_bool_iff in Hz. rewrite Hz in Hq. destruct (Qlt_irrefl _ Hq). }
  destruct (Qgtb 0 q) eqn:Hn; [| reflexivity].
  apply Qgtb_true in Hn. destruct (Qlt_irrefl 0). eapply Qlt_trans; eauto.
Qed.

(** The depth filter always returns, and a row whose INFO carries no
    [DP=<digits>] is never kept. *)
Lemma filter_dp_total df t v :
  exists df', returned (filter_dp df t v) = Ok df' /\
    forall r, r ∈ rows df' -> extract_DP r <> None.
Proof.
  rewrite filter_dp_returned.
  assert (exists thr, returned (substitute_default t) = Ok thr) as [thr ->].
  { unfold substitute_default.
    destruct (dp_falsy t); [eexists; reflexivity |].
    destruct (dp_negative t); eexists; reflexivity. }
  eexists; split; [reflexivity |]. simpl. intros r Hr.
  apply list_elem_of_In, filter_In in Hr as [_ Hr].
  unfold dp_gt, dp_value in Hr.
  destruct (extract_DP r); [discriminate | discriminate Hr].
Qed.
End Depth.

(** ** The allele-frequency filter *)

Section AlleleFrequency.
Import filteration.

Lemma filter_af_out_of_range df t v :
  ~ (0 <= t /\ t <= 1)%Q -> filter_af df t v =
    ([OStr "WARNING: The allele frequency (AF) is not between 0 and 1. Therefore, this filtration does not apply!"], Ok df).
Proof.
  intros Ht. unfold filter_af.
  destruct (Qle_bool 0 t && Qle_bool t 1) eqn:E; [| reflexivity].
  apply andb_prop in E as [H0 H1]. apply Qle_bool_iff in H0, H1. tauto.
Qed.

Lemma filter_af_in_range df t v :
  (0 <= t /\ t <= 1)%Q ->
  Forall (fun r => converts (astype_float (extract_AF r))) (rows df) ->
  returned (filter_af df t v) = Ok (keep_rows (af_gt t) df).
Proof.
  intros [H0 H1] Hc. unfold filter_af.
  apply Qle_bool_iff in H0, H1. rewrite H0, H1. cbn [andb].
  rewrite returned_bind, returned_lift.
  rewrite (mapM_map_total astype_float extract_AF None _ Hc).
  rewrite returned_after_prints by auto 10 with prints.
  rewrite returned_mret. unfold df_select, keep_rows.
  rewrite boolean_index_map_map. reflexivity.
Qed.

(** Within the range, one token that is not a float literal aborts the
    filter for the whole table. *)
Lemma filter_af_raises df t v r tok :
  (0 <= t /\ t <= 1)%Q ->
  r ∈ rows df -> extract_AF r = Some tok -> Str.py_float tok = None ->
  exists e, returned (filter_af df t v) = Raise e.
Proof.
  intros [H0 H1] Hr Htok Hbad. unfold filter_af.
  apply Qle_bool_iff in H0, H1. rewrite H0, H1. cbn [andb].
  rewrite returned_bind, returned_lift.
  destruct (mapM_map_Raise astype_float extract_AF (rows df) r ValueError Hr)
    as [e ->]; [| eauto].
  rewrite Htok. simpl. rewrite Hbad. reflexivity.
Qed.

(** When the filter returns, a row without [AF=<token>] is not kept. *)
Lemma filter_af_skips_unmatched df t v df' r :
  (0 <= t /\ t <= 1)%Q ->
  returned (filter_af df t v) = Ok df' -> r ∈ rows df' -> extract_AF r <> None.
Proof.
  intros [H0 H1] Hret Hr. unfold filter_af in Hret.
  apply Qle_bool_iff in H0, H1. rewrite H0, H1 in Hret. cbn [andb] in Hret.
  rewrite returned_bind, returned_lift in Hret.
  destruct (mapM astype_float (map extract_AF (rows df))) as [af |] eqn:E;
    [| discriminate].
  rewrite returned_after_prints in Hret by auto 10 with prints.
  rewrite returned_mret in Hret. injection Hret as <-. simpl in Hr.
  apply mapM_Ok_inv in E. revert Hr. clear -E.
  remember (map extract_AF (rows df)) as xs eqn:Hxs.
  revert Hxs. generalize (rows df) as l.
  induction E as [| x y xs ys Hx _ IH]; intros [| r0 l] Hxs; simpl;
    try discriminate; try (intros H; inversion H; fail).
  injection Hxs as -> ->. specialize (IH l eq_refl).
  destruct (float_gt y t) eqn:Hy.
  - intros [-> | H]%elem_of_cons; [| exact (IH H)].
    intros Hn. rewrite Hn in Hx. simpl in Hx. injection Hx as <-.
    discriminate.
  - exact IH.
Qed.
End AlleleFrequency.

(** ** The chromosome filter *)

Section Chromosome.
Import filteration.

Lemma filter_chr_returned df p v :
  Forall (fun r => converts (chr_value r)) (rows df) ->
  returned (filter_chr df p v) =
  Ok (keep_rows (fun r => int_eq_pyval (get_or 0 (chr_value r)) p) df).
Proof.
  intros Hc. unfold filter_chr.
  rewrite returned_bind, returned_lift.
  rewrite (mapM_map_total astype_int extract_chr 0 _ Hc).
  rewrite returned_after_prints by auto 10 with prints.
  rewrite returned_mret. unfold df_select, keep_rows.
  rewrite boolean_index_map_map. reflexivity.
Qed.

(** One row whose CHROM has no [chr<digits>] aborts the filter for the
    whole table, whatever the parameter. *)
Lemma filter_chr_raises df p v r :
  r ∈ rows df -> extract_chr r = None ->
  exists e, returned (filter_chr df p v) = Raise e.
Proof.
  intros Hr Hnone. unfold filter_chr.
  rewrite returned_bind, returned_lift.
  destruct (mapM_map_Raise astype_int extract_chr (rows df) r ValueError Hr)
    as [e ->]; [| eauto].
  rewrite Hnone. reflexivity.
Qed.

Lemma filter_none {A} (l : list A) : List.filter (fun _ => false) l = [].
Proof. induction l; simpl; auto. Qed.
End Chromosome.

(** ** The position filter *)

Section Position.
Import filteration.

Lemma returned_except_Ok {A} (m h : M A) a :
  returned m = Ok a -> returned (except_ValueError m h) = Ok a.
Proof. destruct m as [l r]; simpl; intros ->. reflexivity. Qed.

Lemma returned_except_ValueError {A} (m h : M A) :
  returned m = Raise ValueError ->
  returned (except_ValueError m h) = returned h.
Proof.
  destruct m as [l r]; simpl; intros ->. unfold except_ValueError.
  destruct h; reflexivity.
Qed.

Lemma parse_token_raises (l : list string) e :
  mapM (fun val => match Str.py_int (Str.strip val) with
                   | Some z => Ok z
                   | None => Raise ValueError
                   end) l = Raise e -> e = ValueError.
Proof.
  induction l as [| x l IH]; simpl; [discriminate |].
  destruct (Str.py_int (Str.strip x)); [| congruence].
  destruct (mapM _ l); [discriminate |]. intros [= <-]. apply IH. reflexivity.
Qed.

Lemma parse_range_two s a b lo hi :
  Str.split "-" s = [a; b] ->
  Str.py_int (Str.strip a) = Some lo -> Str.py_int (Str.strip b) = Some hi ->
  parse_range s = Ok [lo; hi].
Proof.
  intros Hs Ha Hb. unfold parse_range. rewrite Hs. simpl.
  rewrite Ha, Hb. reflexivity.
Qed.

Lemma filter_position_in_range df s v lo hi :
  parse_range s = Ok [lo; hi] ->
  Forall (fun r => converts (pos_value r)) (rows df) ->
  returned (filter_position df s v) = Ok (keep_rows (pos_between lo hi) df).
Proof.
  intros Hs Hc. unfold filter_position. apply returned_except_Ok.
  rewrite returned_bind, returned_lift, Hs.
  rewrite returned_bind, returned_lift.
  rewrite (mapM_total (fun r => astype_int (Some (POS r))) 0 _ Hc).
  rewrite returned_after_prints by auto 10 with prints.
  rewrite returned_mret. unfold df_select, keep_rows.
  rewrite boolean_index_map_map. f_equal. f_equal.
  apply filter_ext_in. intros r Hr.
  rewrite Forall_forall in Hc. destruct (Hc r) as [p Hp].
  { apply list_elem_of_In, Hr. }
  unfold pos_between, pos_value in *. rewrite Hp. simpl.
  rewrite Z.gtb_ltb. reflexivity.
Qed.

Lemma filter_position_not_applied df s v :
  (exists tok, tok ∈ Str.split "-" s /\ Str.py_int (Str.strip tok) = None)
  \/ length (Str.split "-" s) <> 2%nat ->
  returned (filter_position df s v) = Ok df.
Proof.
  intros H. unfold filter_position.
  destruct (parse_range s) as [l | e] eqn:E.
  - apply returned_except_Ok. rewrite returned_bind, returned_lift.
    unfold parse_range in E. apply mapM_Ok_inv in E.
    assert (Hlen : length l <> 2%nat).
    { destruct H as [(tok & Hin & Hbad) | H].
      - exfalso. revert Hin. induction E as [| x y xs ys Hx _ IH].
        + intros Hin; inversion Hin.
        + intros [-> | Hin]%elem_of_cons; [| exact (IH Hin)].
          rewrite Hbad in Hx. discriminate.
      - rewrite <- (Forall2_length _ _ _ E). exact H. }
    destruct l as [| lo [| hi [| ? ?]]]; try reflexivity.
    destruct Hlen; reflexivity.
  - assert (e = ValueError) as -> by (eapply parse_token_raises; exact E).
    rewrite returned_except_ValueError; [reflexivity |].
    rewrite returned_bind, returned_lift. reflexivity.
Qed.
Lemma filter_position_selection df s v df' :
  returned (filter_position df s v) = Ok df' -> selection_of df' df.
Proof.
  unfold filter_position.
  set (body := (_ ≫= _)). set (handler := (_ ≫= _)).
  destruct (returned body) as [d | e] eqn:E.
  - rewrite (returned_except_Ok body handler d E). intros [= <-].
    revert E. unfold body. rewrite returned_bind, returned_lift.
    destruct (parse_range s) as [l | e]; [| discriminate].
    destruct l as [| lo [| hi [| ? ?]]]; try (intros [= <-]; apply selection_of_refl).
    rewrite returned_bind, returned_lift.
    destruct (mapM _ (rows df)) as [pos | e]; [| discriminate].
    rewrite returned_after_prints by auto 10 with prints.
    intros [= <-]. apply selection_of_select.
  - destruct body as [l r]. simpl in E. subst r.
    destruct e; simpl; try discriminate.
    unfold handler. intros [= <-]. apply selection_of_refl.
Qed.
Lemma mapM_Raise_inv {A B} (f : A -> result B) (l : list A) e :
  mapM f l = Raise e -> exists x, x ∈ l /\ f x = Raise e.
Proof.
  induction l as [| x l IH]; simpl; [discriminate |].
  destruct (f x) as [y | e0] eqn:Hx.
  - destruct (mapM f l) as [ys | e1]; [discriminate |].
    intros [= <-]. destruct (IH eq_refl) as (x' & Hin & Hx').
    exists x'. split; [apply list_elem_of_further, Hin | exact Hx'].
  - intros [= <-]. exists x. split; [apply list_elem_of_here | exact Hx].
Qed.

Lemma pos_value_raises r e :
  pos_value r = Raise e -> e = ValueError \/ e = OverflowError.
Proof.
  unfold pos_value, astype_int, to_int64.
  destruct (Str.py_int (POS r)) as [z |]; [| intros [= <-]; auto].
  destruct (_ && _); [discriminate | intros [= <-]; auto].
Qed.

(** The position filter returns unless a POS is an integer outside int64. *)
Lemma filter_position_returns df s v :
  Forall (fun r => pos_value r <> Raise OverflowError) (rows df) ->
  returns (filter_position df s v).
Proof.
  intros Hno. unfold returns, filter_position.
  set (body := (_ ≫= _)). set (handler := (_ ≫= _)).
  destruct (returned body) as [d | e] eqn:E.
  - exists d. apply returned_except_Ok, E.
  - assert (e = ValueError) as ->.
    { revert E. unfold body. rewrite returned_bind, returned_lift.
      destruct (parse_range s) as [l | e0] eqn:Hp.
      - destruct l as [| lo [| hi [| ? ?]]]; try discriminate.
        rewrite returned_bind, returned_lift.
        destruct (mapM _ (rows df)) as [pos | e1] eqn:Hm.
        + rewrite returned_after_prints by auto 10 with prints. discriminate.
        + intros [= <-]. apply mapM_Raise_inv in Hm as (r & Hr & Hraise).
          rewrite Forall_forall in Hno. specialize (Hno r Hr).
          destruct (pos_value_raises r e1 Hraise) as [-> | ->];
            [reflexivity | contradiction].
      - intros [= <-]. eapply parse_token_raises. exact Hp. }
    exists df. rewrite (returned_except_ValueError body handler E).
    reflexivity.
Qed.
End Position.

(** ** The FILTER-column filters *)

Section FilterColumn.
Import filteration.

Lemma include_filter_returned df val v :
  returned (include_filter df val v) =
  Ok (keep_rows (fun r => String.eqb (FILTER r) val) df).
Proof.
  unfold include_filter.
  rewrite returned_after_prints by auto 10 with prints.
  rewrite returned_after_prints by auto 10 with prints.
  rewrite returned_mret. unfold df_select, keep_rows.
  rewrite boolean_index_map. reflexivity.
Qed.

Lemma exclude_filter_returned df val v :
  returned (exclude_filter df val v) =
  Ok (keep_rows (fun r => negb (String.eqb (FILTER r) val)) df).
Proof.
  unfold exclude_filter.
  rewrite returned_after_prints by auto 10 with prints.
  rewrite returned_after_prints by auto 10 with prints.
  rewrite returned_mret. unfold df_select, keep_rows.
  rewrite boolean_index_map. reflexivity.
Qed.

Lemma filter_twice {A} (f : A -> bool) (l : list A) :
  List.filter f (List.filter f l) = List.filter f l.
Proof.
  induction l as [| x l IH]; simpl; [reflexivity |].
  destruct (f x) eqn:Hx; simpl; rewrite ?Hx, IH; reflexivity.
Qed.

Lemma keep_rows_selection p df : selection_of (keep_rows p df) df.
Proof.
  split; [reflexivity |]. simpl. rewrite <- boolean_index_map.
  apply boolean_index_sublist.
Qed.
End FilterColumn.

(** ** The zygosity counter *)

Section Counter.
Import zygosity.

Lemma column_sum_count f col :
  column_sum f col = Z.of_nat (length (List.filter f col)).
Proof.
  induction col as [| x col IH]; simpl; [reflexivity |].
  rewrite IH. destruct (f x); simpl length; unfold bool_Z; lia.
Qed.

Lemma applymap_sum_sum_count f frame :
  applymap_sum_sum f frame = cells_where f frame.
Proof.
  unfold cells_where. induction frame as [| col frame IH]; simpl; [reflexivity |].
  rewrite IH, column_sum_count, List.filter_app, List.length_app. lia.
Qed.

Lemma cells_where_nonneg f frame : 0 <= cells_where f frame.
Proof. unfold cells_where. lia. Qed.

(** The count map built from the selected columns. *)
Lemma calc_zygosity_returned df sample v :
  returned (calc_zygosity df sample v) =
  match snd (selection df sample) with
  | Ok frame =>
      Ok (fst (selection df sample),
          <[key "0/0" := cells_where (genotype_in "0/0") frame]>
          (<[key "0/1" := cells_where (genotype_in "0/1") frame]>
          (<[key "1/0" := cells_where (genotype_in "1/0") frame]>
          (<[key "1/1" := cells_where (genotype_in "1/1") frame]> ∅))))
  | Raise e => Raise e
  end.
Proof.
  unfold calc_zygosity.
  destruct (selection df sample) as [d [frame | e]]; [| reflexivity].
  cbn [snd fst]. rewrite <- !applymap_sum_sum_count. destruct v; reflexivity.
Qed.

Lemma label_positions_In names label i :
  In label names -> label_positions i names label <> [].
Proof.
  revert i; induction names as [| n names IH]; intros i; simpl; [tauto |].
  destruct (String.eqb n label) eqn:E; [discriminate |].
  intros [-> | H]; [| apply IH, H].
  rewrite String.eqb_refl in E. discriminate.
Qed.

Lemma getitem_known df labels :
  Forall (fun l => In l (df_columns df)) labels ->
  exists pss, getitem df labels = Ok (map (column_at df) pss).
Proof.
  intros H. unfold getitem.
  assert (exists pss,
    mapM (fun label =>
            match label_positions 0 (df_columns df) label with
            | [] => Raise KeyError
            | ps => Ok ps
            end) labels = Ok pss) as [pss ->].
  { induction H as [| l labels Hl _ [pss IH]]; cbn [mapM]; [eauto |].
    apply (label_positions_In _ _ 0%nat) in Hl.
    destruct (label_positions 0 (df_columns df) l); [congruence |].
    rewrite IH. eauto. }
  eauto.
Qed.

Lemma kept_sample_column df name :
  In name (df_columns df) -> In name (df_columns (drop_other_samples df name)).
Proof.
  unfold df_columns. rewrite !in_app_iff. intros [H | H]; [left; exact H |].
  right. simpl. rewrite boolean_index_map. apply filter_In. split; [exact H |].
  unfold to_drop. rewrite String.eqb_refl, andb_false_r. reflexivity.
Qed.

(** With no sample name, or with one that names a column, the indexing
    succeeds. *)
Lemma indexed_known df sample :
  sample_known df sample ->
  exists pss, snd (indexed df sample)
              = Ok (map (column_at (fst (indexed df sample))) pss).
Proof.
  intros Hs. unfold indexed.
  destruct (str_truthy sample) eqn:Ht; cbn [snd fst].
  - apply getitem_known. constructor; [| constructor].
    destruct sample as [name |]; [| discriminate]. simpl in *.
    destruct Hs as [-> | Hs]; [discriminate |].
    apply kept_sample_column, Hs.
  - apply getitem_known. apply Forall_forall. intros l Hl.
    apply list_elem_of_In, filter_In in Hl. destruct Hl as [Hl _]. exact Hl.
Qed.

Lemma selection_fst df sample :
  fst (selection df sample) = fst (indexed df sample).
Proof. unfold selection. destruct (indexed df sample); reflexivity. Qed.

Lemma selection_snd df sample :
  snd (selection df sample) =
  match snd (indexed df sample) with
  | Ok frame => mapM (mapM as_str) frame
  | Raise e => Raise e
  end.
Proof. unfold selection. destruct (indexed df sample); reflexivity. Qed.

Lemma as_str_column col :
  Forall (fun x => x <> None) col -> exists ss, mapM as_str col = Ok ss.
Proof.
  induction 1 as [| x col Hx _ [ss IH]]; simpl; [eauto |].
  destruct x as [s |]; [| congruence]. simpl. rewrite IH. eauto.
Qed.

Lemma as_str_frame frame :
  Forall (Forall (fun x => x <> None)) frame ->
  exists strings, mapM (mapM as_str) frame = Ok strings.
Proof.
  induction 1 as [| col frame Hcol _ [strings IH]]; simpl; [eauto |].
  destruct (as_str_column col Hcol) as [ss ->]. rewrite IH. eauto.
Qed.

(** With a known sample and no missing cell in the counted columns, the
    cells are read. *)
Lemma selection_returns df sample :
  sample_known df sample -> no_missing_cell df sample ->
  exists frame, snd (selection df sample) = Ok frame.
Proof.
  intros Hs Hm. rewrite selection_snd.
  destruct (indexed_known df sample Hs) as [pss Hi]. rewrite Hi.
  apply as_str_frame, Hm, Hi.
Qed.

Lemma selection_rows_empty df sample :
  rows df = [] -> rows (fst (selection df sample)) = [].
Proof.
  intros H. rewrite selection_fst. unfold indexed.
  destruct (str_truthy sample); simpl; rewrite H; reflexivity.
Qed.

Lemma indexed_rows_length df sample :
  length (rows (fst (indexed df sample))) = length (rows df).
Proof.
  unfold indexed. destruct (str_truthy sample); simpl;
    rewrite ?List.length_map; reflexivity.
Qed.

Lemma getitem_shape df labels frame :
  getitem df labels = Ok frame -> exists ps, frame = map (column_at df) ps.
Proof.
  unfold getitem. destruct (mapM _ labels) as [pss | e]; [| discriminate].
  intros [= <-]. eauto.
Qed.

Lemma indexed_shape df sample frame :
  snd (indexed df sample) = Ok frame ->
  exists ps, frame = map (column_at (fst (indexed df sample))) ps.
Proof.
  unfold indexed. destruct (str_truthy sample); cbn [snd fst];
    apply getitem_shape.
Qed.

Lemma concat_columns_length df ps :
  length (concat (map (column_at df) ps)) = (length (rows df) * length ps)%nat.
Proof.
  induction ps as [| p ps IH]; simpl; [lia |].
  rewrite List.length_app, IH. unfold column_at. rewrite List.length_map. lia.
Qed.

Lemma mapM_length {A B} (f : A -> result B) (l : list A) ys :
  mapM f l = Ok ys -> length ys = length l.
Proof.
  intros H. apply mapM_Ok_inv in H. symmetry. eapply Forall2_length, H.
Qed.

Lemma as_str_frame_shape frame strings :
  mapM (mapM as_str) frame = Ok strings ->
  length strings = length frame
  /\ length (concat strings) = length (concat frame).
Proof.
  intros H. split; [eapply mapM_length, H |].
  apply mapM_Ok_inv in H.
  induction H as [| col ss frame strings Hcol _ IH]; simpl; [reflexivity |].
  rewrite !List.length_app, IH, (mapM_length _ _ _ Hcol). reflexivity.
Qed.

(** The cells that are read: one per row and counted column. *)
Lemma selection_shape df sample frame :
  snd (selection df sample) = Ok frame ->
  length (concat frame) = (length (rows df) * length frame)%nat.
Proof.
  rewrite selection_snd.
  destruct (snd (indexed df sample)) as [raw |] eqn:Hi; [| discriminate].
  intros [Hl Hc]%as_str_frame_shape.
  destruct (indexed_shape df sample raw Hi) as [ps ->].
  rewrite Hc, Hl, concat_columns_length, indexed_rows_length, List.length_map.
  reflexivity.
Qed.

Lemma selection_no_rows df sample frame :
  rows df = [] -> snd (selection df sample) = Ok frame -> concat frame = [].
Proof.
  intros Hrows Hsel. apply selection_shape in Hsel. rewrite Hrows in Hsel.
  simpl in Hsel. destruct (concat frame); [reflexivity | discriminate].
Qed.

Lemma no_rows_no_missing df sample :
  rows df = [] -> no_missing_cell df sample.
Proof.
  intros Hrows frame Hi.
  destruct (indexed_shape df sample frame Hi) as [ps ->].
  apply Forall_forall. intros col Hcol.
  apply list_elem_of_In, in_map_iff in Hcol as (i & <- & _).
  unfold column_at.
  assert (E : rows (fst (indexed df sample)) = []).
  { pose proof (indexed_rows_length df sample) as H. rewrite Hrows in H.
    destruct (rows (fst (indexed df sample))); [reflexivity | discriminate]. }
  rewrite E. constructor.
Qed.

Lemma cells_where_nil f frame : concat frame = [] -> cells_where f frame = 0.
Proof. unfold cells_where. intros ->. reflexivity. Qed.
End Counter.

(** ** Properties of the filter chain and of the counter *)




(** C2: on a table with a chrX row the chromosome filter raises instead
    of leaving that row out. *)
Theorem filter_chr_aborts_on_chrX :
  filteration.extract_chr (mk_row "chrX" "2000" "PASS" "DP=30;AF=0.5" ["GT:AD"; "1/1:0,30"]) = None
  /\ returned (filteration.filter_chr with_chrX (PyInt 2) false) = Raise ValueError.
Proof. split; reflexivity. Qed.

(** C3: a supplied threshold of 0 is taken for an absent one.  The filter
    prints that the threshold was not specified, filters by 10 and drops
    the row of depth 5, which is above 0; the threshold 0.5 keeps it. *)
Theorem filter_dp_zero_threshold :
  map filteration.extract_DP (rows shallow) = [Some "5"]
  /\ filteration.filter_dp shallow (Some 0%Q) false
     = ([OStr "WARNING: The depth threshold was not specified. The filtering process will proceed with a default depth value of 10.";
         OStr "WARNING: The VCF file does not contain any rows that accept depth threshold"],
        Ok {| columns := columns shallow; rows := [] |})
  /\ filteration.filter_dp shallow (Some (1 # 2)%Q) false = ([], Ok shallow).
Proof. repeat split. Qed.

(** C4: when every CHROM yields an integer after [chr], a string
    parameter leaves no row. *)
Theorem filter_chr_string_parameter df (s : string) v :
  Forall (fun r => converts (chr_value r)) (rows df) ->
  returned (filteration.filter_chr df (PyStr s) v)
  = Ok {| columns := columns df; rows := [] |}.
Proof.
  intros Hc. rewrite (filter_chr_returned df (PyStr s) v Hc).
  unfold keep_rows. simpl int_eq_pyval. rewrite filter_none. reflexivity.
Qed.

Lemma filter_chr_string_parameter_witness :
  Forall (fun r => converts (chr_value r)) (rows demo)
  /\ returned (filteration.filter_chr demo (PyStr "2") false)
     = Ok {| columns := columns demo; rows := [] |}.
Proof.
  assert (H : Forall (fun r => converts (chr_value r)) (rows demo)).
  { repeat constructor; eexists; reflexivity. }
  split; [exact H |].
  apply (filter_chr_string_parameter demo "2" false H).
Defined.

(** C5: with a threshold inside [0,1], a row whose AF is the missing
    value [.] makes the filter raise instead of returning the rows above
    the threshold. *)
Theorem filter_af_aborts_on_missing_value :
  filteration.extract_AF (mk_row "chr1" "2000" "PASS" "DP=30;AF=." ["GT:AD"; "1/1:0,30"]) = Some "."
  /\ returned (filteration.filter_af with_missing_AF (1 # 2)%Q false)
     = Raise ValueError.
Proof. split; reflexivity. Qed.

(** C6: with the range [50-200], whose two tokens are integers, and a
    row whose POS is not an integer, the filter prints that the range
    should consist of integers and returns the three rows, those at
    9999 and at [abc] included, where only the row at 100 is inside the
    range. *)
Theorem filter_position_blames_range :
  map POS (rows bad_POS) = ["100"; "9999"; "abc"]
  /\ filteration.parse_range "50-200" = Ok [50; 200]
  /\ filteration.filter_position bad_POS "50-200" false
     = ([OStr "Error: The position range should consist of integers only. Therefore, this filtration does not apply!"],
        Ok bad_POS).
Proof. repeat split. Qed.




(** C8: filtering on a FILTER value a second time changes nothing. *)
Theorem include_filter_idempotent df (val : string) v :
  exists once,
    returned (filteration.include_filter df val v) = Ok once
    /\ returned (filteration.include_filter once val v) = Ok once.
Proof.
  eexists. split; [apply include_filter_returned |].
  rewrite include_filter_returned. unfold keep_rows. simpl.
  rewrite filter_twice. reflexivity.
Qed.

(** C9: what a filter returns has the columns of its input and, as rows,
    a subsequence of the input rows, each row unchanged.  The depth filter
    and the two FILTER-column filters return on every table; the other
    three return on every table whose AF tokens, CHROM numbers and POS
    values convert. *)
Theorem filters_are_selections df v :
  (forall t,
      (~ (0 <= t /\ t <= 1)%Q
       \/ Forall (fun r => converts (astype_float (filteration.extract_AF r))) (rows df) ->
       returns (filteration.filter_af df t v))
      /\ forall df', returned (filteration.filter_af df t v) = Ok df' ->
                     selection_of df' df)
  /\ (forall t, exists df', returned (filteration.filter_dp df t v) = Ok df'
                            /\ selection_of df' df)
  /\ (forall p,
      (Forall (fun r => converts (chr_value r)) (rows df) ->
       returns (filteration.filter_chr df p v))
      /\ forall df', returned (filteration.filter_chr df p v) = Ok df' ->
                     selection_of df' df)
  /\ (forall s,
      (Forall (fun r => pos_value r <> Raise OverflowError) (rows df) ->
       returns (filteration.filter_position df s v))
      /\ forall df', returned (filteration.filter_position df s v) = Ok df' ->
                     selection_of df' df)
  /\ (forall val, exists df', returned (filteration.include_filter df val v) = Ok df'
                              /\ selection_of df' df)
  /\ (forall val, exists df', returned (filteration.exclude_filter df val v) = Ok df'
                              /\ selection_of df' df).
Proof.
  split; [| split; [| split; [| split; [| split]]]].
  - intros t. split.
    + intros [Hout | Hc].
      * exists df. rewrite (filter_af_out_of_range df t v Hout). reflexivity.
      * destruct (Qle_bool 0 t && Qle_bool t 1) eqn:E.
        -- apply andb_prop in E as [H0 H1]. apply Qle_bool_iff in H0, H1.
           eexists. apply filter_af_in_range; [split; assumption | exact Hc].
        -- exists df. unfold filteration.filter_af. rewrite E. reflexivity.
    + intros df'. unfold filteration.filter_af.
      destruct (Qle_bool 0 t && Qle_bool t 1).
      * rewrite returned_bind, returned_lift.
        destruct (mapM astype_float _) as [af | e]; [| discriminate].
        rewrite returned_after_prints by auto 10 with prints.
        intros [= <-]. apply selection_of_select.
      * intros [= <-]. apply selection_of_refl.
  - intros t. destruct (filter_dp_total df t v) as (df' & H & _).
    exists df'. split; [exact H |]. rewrite filter_dp_returned in H.
    destruct (returned (filteration.substitute_default t)); [| discriminate].
    injection H as <-. apply keep_rows_selection.
  - intros p. split.
    + intros Hc. eexists. apply filter_chr_returned, Hc.
    + intros df'. unfold filteration.filter_chr.
      rewrite returned_bind, returned_lift.
      destruct (mapM astype_int _) as [chr | e]; [| discriminate].
      rewrite returned_after_prints by auto 10 with prints.
      intros [= <-]. apply selection_of_select.
  - intros s. split.
    + apply filter_position_returns.
    + intros df'. apply filter_position_selection.
  - intros val. rewrite include_filter_returned.
    eexists. split; [reflexivity | apply keep_rows_selection].
  - intros val. rewrite exclude_filter_returned.
    eexists. split; [reflexivity | apply keep_rows_selection].
Qed.

Lemma filters_are_selections_witness :
  (returns (filteration.filter_af demo (1 # 2) false)
   /\ selection_of (keep_rows (af_gt (1 # 2)) demo) demo)
  /\ (returns (filteration.filter_chr demo (PyInt 2) false)
      /\ selection_of (keep_rows (fun r => int_eq_pyval (get_or 0 (chr_value r)) (PyInt 2)) demo) demo)
  /\ (returns (filteration.filter_position demo "1000-5000" false)
      /\ selection_of (keep_rows (pos_between 1000 5000) demo) demo).
Proof.
  destruct (filters_are_selections demo false) as (Haf & _ & Hchr & Hpos & _).
  split; [| split].
  - destruct (Haf (1 # 2)%Q) as [Hret Hsel]. split.
    + apply Hret. right. repeat constructor; eexists; reflexivity.
    + apply Hsel. reflexivity.
  - destruct (Hchr (PyInt 2)) as [Hret Hsel]. split.
    + apply Hret. repeat constructor; eexists; reflexivity.
    + apply Hsel. reflexivity.
  - destruct (Hpos "1000-5000") as [Hret Hsel]. split.
    + apply Hret. repeat constructor; discriminate.
    + apply Hsel. reflexivity.
Defined.

(** C10: an allele-frequency parameter of 0, and an empty chromosome,
    position-range, include-filter or exclude-filter parameter, run the
    pipeline exactly as when the parameter is absent. *)
Theorem falsy_parameters_are_skipped
  df sample depth af chromosome position_range include_filter exclude_filter v :
  zygosity.process_vcf_file df sample depth (Some 0%Q) chromosome
    position_range include_filter exclude_filter v
  = zygosity.process_vcf_file df sample depth None chromosome
      position_range include_filter exclude_filter v
  /\ zygosity.process_vcf_file df sample depth af (Some "")
       position_range include_filter exclude_filter v
     = zygosity.process_vcf_file df sample depth af None
         position_range include_filter exclude_filter v
  /\ zygosity.process_vcf_file df sample depth af chromosome
       (Some "") include_filter exclude_filter v
     = zygosity.process_vcf_file df sample depth af chromosome
         None include_filter exclude_filter v
  /\ zygosity.process_vcf_file df sample depth af chromosome
       position_range (Some "") exclude_filter v
     = zygosity.process_vcf_file df sample depth af chromosome
         position_range None exclude_filter v
  /\ zygosity.process_vcf_file df sample depth af chromosome
       position_range include_filter (Some "") v
     = zygosity.process_vcf_file df sample depth af chromosome
         position_range include_filter None v.
Proof. repeat split. Qed.

(** ** The behaviour on small tables *)

(** The filter at the threshold 0 would drop a row of allele frequency 0;
    the pipeline, given 0, keeps it. *)
Example af_zero_not_applied :
  returned (filteration.filter_af af_zero 0 false)
  = Ok {| columns := ["SAMPLE1"]; rows := [] |}
  /\ fst <$> (match returned (zygosity.process_vcf_file af_zero None (Some 20%Q)
                               (Some 0%Q) None None None None false) with
              | Ok x => Some x | Raise _ => None end)
     = Some af_zero.
Proof. split; reflexivity. Qed.

Example chromosome_2_of_demo :
  (fun df => map POS (rows df)) <$>
    (match returned (filteration.filter_chr demo (PyInt 2) false) with
     | Ok x => Some x | Raise _ => None end)
  = Some ["2500"; "5000"].
Proof. reflexivity. Qed.

Example position_bounds_are_exclusive :
  (fun df => map POS (rows df)) <$>
    (match returned (filteration.filter_position demo "1000-5000" false) with
     | Ok x => Some x | Raise _ => None end)
  = Some ["2500"].
Proof. reflexivity. Qed.

Example include_then_exclude_PASS :
  returned (df ← filteration.include_filter demo "PASS" false;
            filteration.exclude_filter df "PASS" false)
  = Ok {| columns := columns demo; rows := [] |}.
Proof. reflexivity. Qed.

Example four_calls_counted :
  (fun r => (snd r !! key "0/0", snd r !! key "0/1",
             snd r !! key "1/0", snd r !! key "1/1")) <$>
    (match returned (zygosity.calc_zygosity four_calls None false) with
     | Ok x => Some x | Raise _ => None end)
  = Some (Some 1, Some 1, Some 0, Some 1).
Proof. reflexivity. Qed.

Example unknown_sample_raises :
  returned (zygosity.calc_zygosity demo (Some "SAMPLE9") false) = Raise KeyError.
Proof. reflexivity. Qed.

(** ** Further properties of the FILTER-column filters *)

Section MoreFilterColumn.
Import filteration.

Lemma output_bind {A B} (m : M A) (f : A -> M B) :
  output (m ≫= f) =
  (output m ++ match returned m with
               | Ok a => output (f a)
               | Raise _ => []
               end)%list.
Proof.
  destruct m as [l [a | e]]; unfold output, mbind; simpl.
  - destruct (f a); reflexivity.
  - rewrite app_nil_r. reflexivity.
Qed.

Lemma df_eta df : {| columns := columns df; rows := rows df |} = df.
Proof. destruct df; reflexivity. Qed.

Lemma filter_all {A} (f : A -> bool) (l : list A) :
  Forall (fun x => f x = true) l -> List.filter f l = l.
Proof.
  induction 1 as [| x l Hx _ IH]; simpl; [reflexivity |].
  rewrite Hx, IH. reflexivity.
Qed.

Lemma filter_nothing {A} (f : A -> bool) (l : list A) :
  Forall (fun x => f x = false) l -> List.filter f l = [].
Proof.
  induction 1 as [| x l Hx _ IH]; simpl; [reflexivity |].
  rewrite Hx, IH. reflexivity.
Qed.

Lemma not_in_FILTER val df :
  in_FILTER val df = false ->
  Forall (fun r => String.eqb (FILTER r) val = false) (rows df).
Proof.
  unfold in_FILTER. induction (rows df) as [| r l IH]; simpl; [constructor |].
  intros [Hr Hl]%orb_false_elim. constructor; auto.
Qed.

(** X1: A value that occurs nowhere in the FILTER column: [include_filter]
    warns and returns the table without rows, [exclude_filter] warns and
    returns the table as it is. *)
Theorem absent_FILTER_value df (val : string) v :
  in_FILTER val df = false ->
  (exists rest,
      include_filter df val v
      = (OStr "WARNING: This value does not exist in the FILTER columns for including it!" :: rest,
         Ok {| columns := columns df; rows := [] |}))
  /\ (exists rest,
      exclude_filter df val v
      = (OStr "WARNING: This value does not exist in the FILTER columns for excluding it!" :: rest,
         Ok df)).
Proof.
  intros Hin. pose proof (not_in_FILTER val df Hin) as Hall. split.
  - pose proof (include_filter_returned df val v) as Hret.
    unfold keep_rows in Hret. rewrite (filter_nothing _ _ Hall) in Hret.
    destruct (include_filter df val v) as [l r] eqn:E. simpl in Hret. subst r.
    assert (Hout : output (include_filter df val v)
                   = OStr "WARNING: This value does not exist in the FILTER columns for including it!"
                     :: match l with [] => [] | _ :: t => t end).
    { rewrite E. simpl. revert E. unfold include_filter. rewrite Hin. simpl negb.
      unfold when at 1. intros E. apply (f_equal fst) in E.
      change (fst (?m)) with (output m) in E. rewrite output_bind in E.
      simpl in E. rewrite <- E. reflexivity. }
    rewrite E in Hout. simpl in Hout. rewrite Hout. eauto.
  - pose proof (exclude_filter_returned df val v) as Hret.
    unfold keep_rows in Hret. rewrite filter_all, df_eta in Hret.
    2:{ eapply Forall_impl; [exact Hall |]. simpl. intros r ->. reflexivity. }
    destruct (exclude_filter df val v) as [l r] eqn:E. simpl in Hret. subst r.
    assert (Hout : output (exclude_filter df val v)
                   = OStr "WARNING: This value does not exist in the FILTER columns for excluding it!"
                     :: match l with [] => [] | _ :: t => t end).
    { rewrite E. simpl. revert E. unfold exclude_filter. rewrite Hin. simpl negb.
      unfold when at 1. intros E. apply (f_equal fst) in E.
      change (fst (?m)) with (output m) in E. rewrite output_bind in E.
      simpl in E. rewrite <- E. reflexivity. }
    rewrite E in Hout. simpl in Hout. rewrite Hout. eauto.
Qed.
End MoreFilterColumn.

(** ** How the filters that always return compose *)

Section Composition.
Import filteration.

Lemma filter_comm {A} (f g : A -> bool) (l : list A) :
  List.filter f (List.filter g l) = List.filter g (List.filter f l).
Proof.
  induction l as [| x l IH]; simpl; [reflexivity |].
  destruct (f x) eqn:Hf, (g x) eqn:Hg; simpl; rewrite ?Hf, ?Hg, IH; reflexivity.
Qed.

Lemma filter_implied {A} (f g : A -> bool) (l : list A) :
  (forall x, f x = true -> g x = true) ->
  List.filter f (List.filter g l) = List.filter f l.
Proof.
  intros H. induction l as [| x l IH]; simpl; [reflexivity |].
  destruct (g x) eqn:Hg; simpl.
  - rewrite IH. reflexivity.
  - destruct (f x) eqn:Hf; [| exact IH].
    rewrite (H x Hf) in Hg. discriminate.
Qed.

Lemma filter_split_Permutation {A} (f : A -> bool) (l : list A) :
  List.filter f l ++ List.filter (fun x => negb (f x)) l ≡ₚ l.
Proof.
  induction l as [| x l IH]; simpl; [reflexivity |].
  destruct (f x); simpl.
  - rewrite IH. reflexivity.
  - rewrite <- Permutation_middle, IH. reflexivity.
Qed.

Lemma keep_rows_comm p q df :
  keep_rows p (keep_rows q df) = keep_rows q (keep_rows p df).
Proof. unfold keep_rows; simpl. rewrite filter_comm. reflexivity. Qed.

Lemma substitute_default_returns t :
  exists thr, returned (substitute_default t) = Ok thr /\ (0 < num_Q thr)%Q.
Proof.
  unfold substitute_default.
  destruct (dp_falsy t) eqn:Hf; [exists (NInt 10); split; reflexivity |].
  destruct (dp_negative t) eqn:Hn; [exists (NInt 10); split; reflexivity |].
  destruct t as [q |]; [| discriminate].
  exists (NFloat q). split; [reflexivity |]. simpl in *.
  destruct (Qlt_le_dec 0 q) as [H | H]; [exact H |].
  apply Qle_lteq in H as [H | H].
  - apply Qgtb_true in H. congruence.
  - apply Qeq_bool_iff in H. congruence.
Qed.

(** The depth filter keeps the rows above a threshold that depends on the
    parameter only. *)
Lemma filter_dp_keeps t :
  exists thr, (0 < thr)%Q /\
    forall df v, returned (filter_dp df t v) = Ok (keep_rows (dp_gt thr) df).
Proof.
  destruct (substitute_default_returns t) as (thr & Hthr & Hpos).
  exists (num_Q thr). split; [exact Hpos |].
  intros df v. rewrite filter_dp_returned, Hthr. reflexivity.
Qed.

(** X2: The rows that [include_filter] and [exclude_filter] return for one
    value are, together, the rows of the table: none is lost, none is in
    both. *)
Theorem include_exclude_split df (val : string) v :
  exists inc exc,
    returned (include_filter df val v) = Ok inc
    /\ returned (exclude_filter df val v) = Ok exc
    /\ rows inc ++ rows exc ≡ₚ rows df
    /\ (forall r, r ∈ rows inc -> FILTER r = val)
    /\ (forall r, r ∈ rows exc -> FILTER r <> val).
Proof.
  eexists _, _. split; [apply include_filter_returned |].
  split; [apply exclude_filter_returned |]. simpl. split; [| split].
  - apply filter_split_Permutation.
  - intros r [_ Hr]%list_elem_of_In%filter_In. apply String.eqb_eq, Hr.
  - intros r [_ Hr]%list_elem_of_In%filter_In.
    apply negb_true_iff, String.eqb_neq in Hr. exact Hr.
Qed.

(** X3: Including a FILTER value and then excluding the same value leaves no
    row, on every table. *)
Theorem include_then_exclude_is_empty df (val : string) v :
  returned (d ← include_filter df val v; exclude_filter d val v)
  = Ok {| columns := columns df; rows := [] |}.
Proof.
  rewrite returned_bind, include_filter_returned, exclude_filter_returned.
  unfold keep_rows. simpl. f_equal. f_equal.
  apply filter_nothing, Forall_forall. intros r Hr.
  apply list_elem_of_In, filter_In in Hr as [_ Hr]. rewrite Hr. reflexivity.
Qed.

(** X4: The depth filter and the two FILTER-column filters give the same table
    in either order. *)
Theorem total_filters_commute df t (val val' : string) v :
  returned (d ← filter_dp df t v; include_filter d val v)
  = returned (d ← include_filter df val v; filter_dp d t v)
  /\ returned (d ← filter_dp df t v; exclude_filter d val v)
     = returned (d ← exclude_filter df val v; filter_dp d t v)
  /\ returned (d ← include_filter df val v; exclude_filter d val' v)
     = returned (d ← exclude_filter df val' v; include_filter d val v).
Proof.
  destruct (filter_dp_keeps t) as (thr & _ & Hdp).
  rewrite !returned_bind, !Hdp, !include_filter_returned,
    !exclude_filter_returned.
  cbv beta iota.
  rewrite ?Hdp, ?include_filter_returned, ?exclude_filter_returned.
  repeat split; f_equal; apply keep_rows_comm.
Qed.

Lemma dp_gt_weaken t1 t2 r :
  (t1 <= t2)%Q -> dp_gt t2 r = true -> dp_gt t1 r = true.
Proof.
  unfold dp_gt. intros Hle (q & Hq & Hlt)%float_gt_true.
  apply float_gt_true. exists q. split; [exact Hq |].
  eapply Qle_lt_trans; eauto.
Qed.

(** X5: Raising the depth threshold only removes rows: with positive
    thresholds [t1 <= t2], filtering at [t1] and then at [t2] is filtering
    at [t2], and what [t2] keeps is among what [t1] keeps. *)
Theorem filter_dp_tightens df t1 t2 v :
  (0 < t1)%Q -> (t1 <= t2)%Q ->
  exists d1 d2,
    returned (filter_dp df (Some t1) v) = Ok d1
    /\ returned (filter_dp df (Some t2) v) = Ok d2
    /\ returned (filter_dp d1 (Some t2) v) = Ok d2
    /\ selection_of d2 d1.
Proof.
  intros H1 Hle.
  assert (H2 : (0 < t2)%Q) by (eapply Qlt_le_trans; eauto).
  assert (E : keep_rows (dp_gt t2) (keep_rows (dp_gt t1) df)
              = keep_rows (dp_gt t2) df).
  { unfold keep_rows; simpl. f_equal.
    apply filter_implied. intros r. apply dp_gt_weaken, Hle. }
  exists (keep_rows (dp_gt t1) df), (keep_rows (dp_gt t2) df).
  rewrite !filter_dp_returned, (substitute_default_positive t1 H1),
    (substitute_default_positive t2 H2). cbv beta iota.
  change (returned ([], Ok (NFloat t1))) with (Ok (NFloat t1) : result num).
  change (returned ([], Ok (NFloat t2))) with (Ok (NFloat t2) : result num).
  cbv beta iota. change (num_Q (NFloat t1)) with t1.
  change (num_Q (NFloat t2)) with t2.
  split; [reflexivity |]. split; [reflexivity |].
  split; [f_equal; exact E |].
  rewrite <- E. apply keep_rows_selection.
Qed.

Lemma filter_dp_tightens_witness :
  exists d1 d2,
    returned (filter_dp demo (Some 9%Q) false) = Ok d1
    /\ returned (filter_dp demo (Some 20%Q) false) = Ok d2
    /\ returned (filter_dp d1 (Some 20%Q) false) = Ok d2
    /\ selection_of d2 d1.
Proof.
  apply (filter_dp_tightens demo 9%Q 20%Q false); [reflexivity |].
  unfold Qle; simpl; lia.
Defined.

(** X6: The depth filter cannot be switched off: whatever the threshold
    parameter, it returns, and every row it keeps has a [DP=<digits>] in
    INFO with a value of at least 1. *)
Theorem filter_dp_keeps_positive_depth df t v :
  exists df', returned (filter_dp df t v) = Ok df' /\
    forall r, r ∈ rows df' ->
      exists d, extract_DP r = Some d /\ 1 <= Str.digits_value d.
Proof.
  destruct (filter_dp_keeps t) as (thr & Hpos & Hdp).
  eexists. split; [apply Hdp |]. simpl. intros r Hr.
  apply list_elem_of_In, filter_In in Hr as [_ Hr].
  unfold dp_gt in Hr. apply float_gt_true in Hr as (q & Hq & Hlt).
  unfold dp_value in Hq. destruct (extract_DP r) as [d |]; [| discriminate].
  injection Hq as <-. exists d. split; [reflexivity |].
  assert (H : (0 < inject_Z (Str.digits_value d))%Q)
    by (eapply Qlt_trans; eauto).
  unfold Qlt in H. simpl in H. lia.
Qed.
End Composition.

(** ** What a returned table tells about the input *)

Section Inversion.
Import filteration.

Lemma mapM_map_converts {A B C} (f : B -> result C) (h : A -> B) (l : list A) ys :
  mapM f (map h l) = Ok ys -> Forall (fun x => converts (f (h x))) l.
Proof.
  revert ys; induction l as [| x l IH]; simpl; intros ys H; [constructor |].
  destruct (f (h x)) as [y | e] eqn:Hx; [| discriminate].
  destruct (mapM f (map h l)) as [ys' | e]; [| discriminate].
  constructor; [exists y; first [reflexivity | exact Hx] | eapply IH; reflexivity].
Qed.

Lemma mapM_converts {A C} (f : A -> result C) (l : list A) ys :
  mapM f l = Ok ys -> Forall (fun x => converts (f x)) l.
Proof.
  revert ys; induction l as [| x l IH]; simpl; intros ys H; [constructor |].
  destruct (f x) as [y | e] eqn:Hx; [| discriminate].
  destruct (mapM f l) as [ys' | e]; [| discriminate].
  constructor; [exists y; first [reflexivity | exact Hx] | eapply IH; reflexivity].
Qed.

Lemma Forall_filter_keeps {A} (P : A -> Prop) (f : A -> bool) (l : list A) :
  Forall P l -> Forall P (List.filter f l).
Proof.
  intros H. apply Forall_forall. intros x Hx.
  apply list_elem_of_In, filter_In in Hx as [Hx _].
  rewrite Forall_forall in H. apply H, list_elem_of_In, Hx.
Qed.

Lemma filter_af_Ok_inv df t v d :
  (0 <= t /\ t <= 1)%Q -> returned (filter_af df t v) = Ok d ->
  Forall (fun r => converts (astype_float (extract_AF r))) (rows df)
  /\ d = keep_rows (af_gt t) df.
Proof.
  intros Ht Hret.
  assert (Hc : Forall (fun r => converts (astype_float (extract_AF r))) (rows df)).
  { revert Hret. unfold filter_af. destruct Ht as [H0 H1].
    apply Qle_bool_iff in H0, H1. rewrite H0, H1. cbn [andb].
    rewrite returned_bind, returned_lift.
    destruct (mapM astype_float (map extract_AF (rows df))) as [af |] eqn:E;
      [| discriminate].
    intros _. eapply mapM_map_converts, E. }
  split; [exact Hc |].
  rewrite (filter_af_in_range df t v Ht Hc) in Hret. congruence.
Qed.

Lemma filter_chr_Ok_inv df p v d :
  returned (filter_chr df p v) = Ok d ->
  Forall (fun r => converts (chr_value r)) (rows df)
  /\ d = keep_rows (fun r => int_eq_pyval (get_or 0 (chr_value r)) p) df.
Proof.
  intros Hret.
  assert (Hc : Forall (fun r => converts (chr_value r)) (rows df)).
  { revert Hret. unfold filter_chr. rewrite returned_bind, returned_lift.
    destruct (mapM astype_int (map extract_chr (rows df))) as [chr |] eqn:E;
      [| discriminate].
    intros _. eapply (mapM_map_converts astype_int extract_chr), E. }
  split; [exact Hc |].
  rewrite (filter_chr_returned df p v Hc) in Hret. congruence.
Qed.

Lemma filter_position_Ok_inv df s v d :
  returned (filter_position df s v) = Ok d ->
  d = df \/
  exists lo hi, parse_range s = Ok [lo; hi]
    /\ Forall (fun r => converts (pos_value r)) (rows df)
    /\ d = keep_rows (pos_between lo hi) df.
Proof.
  intros Hret.
  destruct (parse_range s) as [l | e] eqn:Hp.
  - destruct l as [| lo [| hi [| ? ?]]].
    1,2,4: left; revert Hret; unfold filter_position;
      rewrite (returned_except_Ok _ _ df);
      [congruence | rewrite returned_bind, returned_lift, Hp; reflexivity].
    destruct (mapM (fun r => astype_int (Some (POS r))) (rows df)) as [pos | e]
      eqn:Hm.
    + right. exists lo, hi. split; [reflexivity |].
      pose proof (mapM_converts _ _ _ Hm) as Hc. split; [exact Hc |].
      rewrite (filter_position_in_range df s v lo hi Hp Hc) in Hret. congruence.
    + left. revert Hret. unfold filter_position.
      set (body := (_ ≫= _)). set (handler := (_ ≫= _)).
      assert (Hb : returned body = Raise e).
      { unfold body. rewrite returned_bind, returned_lift, Hp.
        rewrite returned_bind, returned_lift, Hm. reflexivity. }
      destruct body as [out r]. simpl in Hb. subst r.
      destruct e; simpl; try discriminate. unfold handler. congruence.
  - left. revert Hret. unfold filter_position.
    assert (e = ValueError) as -> by (eapply parse_token_raises; exact Hp).
    rewrite returned_except_ValueError; [simpl; congruence |].
    rewrite returned_bind, returned_lift, Hp. reflexivity.
Qed.

(** X7: Applying a filter again, with the same parameter, to the table it
    returned gives that table back. *)
Theorem filters_are_idempotent df v :
  (forall t d, returned (filter_af df t v) = Ok d ->
               returned (filter_af d t v) = Ok d)
  /\ (forall t, exists d, returned (filter_dp df t v) = Ok d
                          /\ returned (filter_dp d t v) = Ok d)
  /\ (forall p d, returned (filter_chr df p v) = Ok d ->
                  returned (filter_chr d p v) = Ok d)
  /\ (forall s d, returned (filter_position df s v) = Ok d ->
                  returned (filter_position d s v) = Ok d)
  /\ (forall val, exists d, returned (exclude_filter df val v) = Ok d
                            /\ returned (exclude_filter d val v) = Ok d).
Proof.
  split; [| split; [| split; [| split]]].
  - intros t d Hret.
    destruct (Qle_bool 0 t && Qle_bool t 1) eqn:E.
    + apply andb_prop in E as [H0 H1]. apply Qle_bool_iff in H0, H1.
      destruct (filter_af_Ok_inv df t v d (conj H0 H1) Hret) as [Hc ->].
      rewrite filter_af_in_range; [| split; assumption |].
      * unfold keep_rows; simpl. rewrite filter_twice. reflexivity.
      * apply Forall_filter_keeps, Hc.
    + assert (Hout : ~ (0 <= t /\ t <= 1)%Q).
      { intros [H0 H1]. apply Qle_bool_iff in H0, H1. rewrite H0, H1 in E.
        discriminate. }
      rewrite (filter_af_out_of_range df t v Hout) in Hret.
      injection Hret as <-. rewrite (filter_af_out_of_range df t v Hout).
      reflexivity.
  - intros t. destruct (filter_dp_keeps t) as (thr & _ & Hdp).
    eexists. split; [apply Hdp |]. rewrite Hdp.
    unfold keep_rows; simpl. rewrite filter_twice. reflexivity.
  - intros p d Hret. destruct (filter_chr_Ok_inv df p v d Hret) as [Hc ->].
    rewrite filter_chr_returned by apply Forall_filter_keeps, Hc.
    unfold keep_rows; simpl. rewrite filter_twice. reflexivity.
  - intros s d Hret.
    destruct (filter_position_Ok_inv df s v d Hret)
      as [-> | (lo & hi & Hp & Hc & ->)]; [exact Hret |].
    rewrite (filter_position_in_range _ s v lo hi Hp)
      by apply Forall_filter_keeps, Hc.
    unfold keep_rows; simpl. rewrite filter_twice. reflexivity.
  - intros val. eexists. split; [apply exclude_filter_returned |].
    rewrite exclude_filter_returned.
    unfold keep_rows; simpl. rewrite filter_twice. reflexivity.
Qed.

Lemma filters_are_idempotent_witness :
  returned (filter_af (keep_rows (af_gt (1 # 2)) demo) (1 # 2) false)
  = Ok (keep_rows (af_gt (1 # 2)) demo)
  /\ returned (filter_chr (keep_rows (on_chromosome 2) demo) (PyInt 2) false)
     = Ok (keep_rows (on_chromosome 2) demo)
  /\ returned (filter_position (keep_rows (pos_between 1000 5000) demo) "1000-5000" false)
     = Ok (keep_rows (pos_between 1000 5000) demo).
Proof.
  destruct (filters_are_idempotent demo false) as (Haf & _ & Hchr & Hpos & _).
  split; [| split].
  - apply (Haf (1 # 2)%Q). reflexivity.
  - apply (Hchr (PyInt 2)). reflexivity.
  - apply (Hpos "1000-5000"). reflexivity.
Defined.

(** X8: With an integer parameter, and every CHROM carrying a number after
    [chr], the chromosome filter keeps exactly the rows with that number. *)
Theorem filter_chr_integer_parameter df (n : Z) v :
  Forall (fun r => converts (chr_value r)) (rows df) ->
  returned (filter_chr df (PyInt n) v) = Ok (keep_rows (on_chromosome n) df).
Proof.
  intros Hc. rewrite (filter_chr_returned df (PyInt n) v Hc).
  unfold keep_rows. f_equal. f_equal. apply filter_ext_in. intros r Hr.
  rewrite Forall_forall in Hc. destruct (Hc r) as [z Hz].
  { apply list_elem_of_In, Hr. }
  unfold on_chromosome. rewrite Hz. reflexivity.
Qed.

Lemma filter_chr_integer_parameter_witness :
  Forall (fun r => converts (chr_value r)) (rows demo)
  /\ returned (filter_chr demo (PyInt 2) false)
     = Ok (keep_rows (on_chromosome 2) demo).
Proof.
  assert (H : Forall (fun r => converts (chr_value r)) (rows demo)).
  { repeat constructor; eexists; reflexivity. }
  split; [exact H | apply (filter_chr_integer_parameter demo 2 false H)].
Defined.
End Inversion.

(** ** Edges of the position filter *)

Section PositionEdges.
Import filteration.

Lemma split_length c s : length (Str.split c s) = S (count_char c s).
Proof.
  induction s as [| x s IH]; simpl; [reflexivity |].
  destruct (Ascii.eqb x c); simpl; [rewrite IH; reflexivity |].
  destruct (Str.split c s) as [| h t]; simpl in *; [discriminate | exact IH].
Qed.

(** X9: A range string takes effect only with exactly one [-] in it, and not
    with a leading one: a single number, three numbers or a negative start
    all return the table as it is. *)
Theorem range_needs_one_inner_dash df (s : string) v :
  count_char "-" s <> 1%nat \/ (exists rest, s = String "-" rest) ->
  returned (filter_position df s v) = Ok df.
Proof.
  intros [Hn | [rest ->]]; apply filter_position_not_applied.
  - right. rewrite split_length. lia.
  - left. exists "". split; [| reflexivity].
    simpl. apply list_elem_of_here.
Qed.

Lemma range_needs_one_inner_dash_witness :
  returned (filter_position demo "2500" false) = Ok demo
  /\ returned (filter_position demo "-5-3000" false) = Ok demo
  /\ returned (filter_position demo "-3000" false) = Ok demo.
Proof.
  split; [| split].
  - apply (range_needs_one_inner_dash demo "2500" false). left. simpl. lia.
  - apply (range_needs_one_inner_dash demo "-5-3000" false). left. simpl. lia.
  - apply (range_needs_one_inner_dash demo "-3000" false). right.
    exists "3000". reflexivity.
Defined.

Lemma M_eta {A} (m : M A) : m = (output m, returned m).
Proof. destruct m; reflexivity. Qed.

(** X10: With a well-formed range, one row whose POS is not an integer turns
    the filter off for the whole table: the table comes back as it is,
    after the message about the range. *)
Theorem position_filter_off_on_bad_POS df (s : string) v lo hi r :
  parse_range s = Ok [lo; hi] ->
  Forall (fun r => pos_value r <> Raise OverflowError) (rows df) ->
  r ∈ rows df -> Str.py_int (POS r) = None ->
  filter_position df s v
  = ([OStr "Error: The position range should consist of integers only. Therefore, this filtration does not apply!"],
     Ok df).
Proof.
  intros Hp Hno Hr Hbad. unfold filter_position.
  set (body := (_ ≫= _)). set (handler := (_ ≫= _)).
  assert (Hm : exists e, mapM (fun r => astype_int (Some (POS r))) (rows df)
                         = Raise e).
  { apply (mapM_Raise _ _ r ValueError Hr). simpl. rewrite Hbad. reflexivity. }
  destruct Hm as [e Hm].
  assert (e = ValueError) as ->.
  { pose proof Hm as Hm'. apply mapM_Raise_inv in Hm' as (r' & Hr' & Hraise).
    rewrite Forall_forall in Hno. specialize (Hno r' Hr').
    destruct (pos_value_raises r' e Hraise) as [-> | ->];
      [reflexivity | contradiction]. }
  assert (Hb : body = ([], Raise ValueError)).
  { rewrite (M_eta body). unfold body.
    rewrite output_bind, returned_bind, returned_lift, Hp.
    rewrite output_bind, returned_bind, returned_lift, Hm. reflexivity. }
  rewrite Hb. reflexivity.
Qed.

Lemma position_filter_off_on_bad_POS_witness :
  filter_position
    {| columns := []; rows := [mk_row "chr1" "100" "PASS" "DP=30" [];
                               mk_row "chr1" "1e3" "PASS" "DP=30" []] |}
    "50-200" false
  = ([OStr "Error: The position range should consist of integers only. Therefore, this filtration does not apply!"],
     Ok {| columns := []; rows := [mk_row "chr1" "100" "PASS" "DP=30" [];
                                  mk_row "chr1" "1e3" "PASS" "DP=30" []] |}).
Proof.
  apply (position_filter_off_on_bad_POS _ "50-200" false 50 200
           (mk_row "chr1" "1e3" "PASS" "DP=30" [])).
  - reflexivity.
  - repeat constructor; discriminate.
  - apply list_elem_of_further, list_elem_of_here.
  - reflexivity.
Defined.

(** X11: A range whose end is not at least two above its start keeps no row. *)
Theorem empty_position_range df (s : string) v lo hi :
  parse_range s = Ok [lo; hi] -> hi <= lo + 1 ->
  Forall (fun r => converts (pos_value r)) (rows df) ->
  returned (filter_position df s v) = Ok {| columns := columns df; rows := [] |}.
Proof.
  intros Hp Hle Hc. rewrite (filter_position_in_range df s v lo hi Hp Hc).
  unfold keep_rows. f_equal. f_equal. apply filter_nothing, Forall_forall.
  intros r _. unfold pos_between. destruct (pos_value r) as [p |]; [| reflexivity].
  destruct (lo <? p) eqn:H1; [| reflexivity].
  destruct (p <? hi) eqn:H2; [| reflexivity].
  apply Z.ltb_lt in H1, H2. lia.
Qed.

Lemma empty_position_range_witness :
  returned (filter_position demo "5000-1000" false)
  = Ok {| columns := columns demo; rows := [] |}.
Proof.
  apply (empty_position_range demo "5000-1000" false 5000 1000).
  - reflexivity.
  - lia.
  - repeat constructor; eexists; reflexivity.
Defined.
End PositionEdges.

(** ** What the INFO patterns capture *)

Section Extraction.
Import filteration.

Lemma string_app_cons c (a b : string) : String c a ++ b = String c (a ++ b).
Proof. reflexivity. Qed.

Lemma string_app_nil_l (b : string) : "" ++ b = b.
Proof. reflexivity. Qed.

Lemma string_app_assoc (a b c : string) : (a ++ b) ++ c = a ++ (b ++ c).
Proof.
  induction a as [| x a IH]; [reflexivity |].
  rewrite !string_app_cons, IH. reflexivity.
Qed.

Lemma strip_prefix_app lit s : Str.strip_prefix lit (lit ++ s) = Some s.
Proof.
  induction lit as [| c lit IH]; simpl; [reflexivity |].
  rewrite Ascii.eqb_refl. exact IH.
Qed.

Lemma strip_prefix_inv lit s rest :
  Str.strip_prefix lit s = Some rest -> s = lit ++ rest.
Proof.
  revert s. induction lit as [| c lit IH]; intros s; simpl.
  - intros [= ->]. reflexivity.
  - destruct s as [| x s]; [discriminate |].
    destruct (Ascii.eqb c x) eqn:E; [| discriminate].
    apply Ascii.eqb_eq in E as <-. intros H. rewrite string_app_cons.
    f_equal. apply IH, H.
Qed.

Lemma take_while_run cls run rest :
  all_of cls run = true -> ends_run cls rest = true ->
  Str.take_while cls (run ++ rest) = run.
Proof.
  intros Hrun Hrest. induction run as [| c run IH]; simpl.
  - destruct rest as [| c rest]; [reflexivity |]. simpl in *.
    apply negb_true_iff in Hrest. rewrite Hrest. reflexivity.
  - simpl in Hrun. apply andb_prop in Hrun as [Hc Hrun].
    rewrite Hc, (IH Hrun). reflexivity.
Qed.

(** A string is the longest run of the class at its start, then a rest. *)
Lemma take_while_split cls s :
  exists rest, s = Str.take_while cls s ++ rest
               /\ all_of cls (Str.take_while cls s) = true
               /\ ends_run cls rest = true.
Proof.
  induction s as [| c s (rest & Hs & Hall & Hend)]; simpl.
  - exists "". repeat split.
  - destruct (cls c) eqn:E.
    + exists rest. rewrite string_app_cons, <- Hs. simpl. rewrite E, Hall.
      repeat split. exact Hend.
    + exists (String c s). simpl. rewrite E. repeat split.
Qed.

Lemma match_here_at_run lit cls run rest :
  Str.is_empty run = false -> all_of cls run = true ->
  ends_run cls rest = true ->
  Str.match_here lit cls (lit ++ run ++ rest) = Some run.
Proof.
  intros Hne Hrun Hrest. unfold Str.match_here.
  rewrite strip_prefix_app, (take_while_run _ _ _ Hrun Hrest), Hne.
  reflexivity.
Qed.

Lemma match_here_inv lit cls s run :
  Str.match_here lit cls s = Some run ->
  exists rest, s = lit ++ run ++ rest /\ Str.is_empty run = false
               /\ all_of cls run = true /\ ends_run cls rest = true.
Proof.
  unfold Str.match_here.
  destruct (Str.strip_prefix lit s) as [t |] eqn:Hp; [| discriminate].
  apply strip_prefix_inv in Hp as ->.
  destruct (take_while_split cls t) as (rest & Ht & Hall & Hend).
  destruct (Str.is_empty (Str.take_while cls t)) eqn:Hne; [discriminate |].
  intros [= <-]. exists rest. rewrite <- Ht. repeat split; assumption.
Qed.

Lemma match_here_None lit cls d post :
  Str.match_here lit cls (lit ++ String d post) = None -> cls d = false.
Proof.
  unfold Str.match_here. rewrite strip_prefix_app. simpl.
  destruct (cls d); [discriminate | reflexivity].
Qed.

Lemma re_search_here lit cls s g :
  Str.match_here lit cls s = Some g -> Str.re_search lit cls s = Some g.
Proof. intros H. destruct s; simpl; rewrite H; reflexivity. Qed.

Lemma re_search_cons lit cls x s :
  Str.match_here lit cls (String x s) = None ->
  Str.re_search lit cls (String x s) = Str.re_search lit cls s.
Proof. intros H. simpl. rewrite H. reflexivity. Qed.

Lemma no_match_in_tail lit cls x k :
  no_match_in lit cls (String x k) -> no_match_in lit cls k.
Proof.
  intros H pre d post ->. apply (H (String x pre) d post). reflexivity.
Qed.

Lemma no_match_in_nil lit cls : no_match_in lit cls "".
Proof.
  intros pre d post E. destruct pre as [| x pre]; [| discriminate E].
  rewrite string_app_nil_l in E.
  destruct lit; [rewrite string_app_nil_l in E | rewrite string_app_cons in E];
    discriminate E.
Qed.

(** A text in which the search finds nothing has no match. *)
Lemma no_match_in_search lit cls k :
  Str.re_search lit cls k = None -> no_match_in lit cls k.
Proof.
  intros Hs pre d post ->. revert Hs.
  induction pre as [| x pre IH].
  - rewrite string_app_nil_l. intros Hs.
    apply (match_here_None lit cls d post).
    destruct (lit ++ String d post); simpl in Hs;
      destruct (Str.match_here lit cls _); [discriminate | reflexivity
                                           | discriminate | reflexivity].
  - rewrite string_app_cons. simpl.
    destruct (Str.match_here lit cls _); [discriminate |]. exact IH.
Qed.

(** What the search returns is the run after the leftmost match. *)
Lemma re_search_inv lit cls s run :
  Str.re_search lit cls s = Some run ->
  exists k rest, s = k ++ lit ++ run ++ rest
    /\ no_match_in lit cls k
    /\ Str.is_empty run = false /\ all_of cls run = true
    /\ ends_run cls rest = true.
Proof.
  induction s as [| x s IH].
  - simpl. destruct (Str.match_here lit cls "") eqn:Hm; [| discriminate].
    intros [= ->]. apply match_here_inv in Hm as (rest & Hs & H).
    exists "", rest. rewrite string_app_nil_l. split; [exact Hs |].
    split; [| exact H]. apply no_match_in_nil.
  - destruct (Str.match_here lit cls (String x s)) eqn:Hm.
    + simpl. rewrite Hm. intros [= ->].
      apply match_here_inv in Hm as (rest & Hs & H).
      exists "", rest. rewrite string_app_nil_l. split; [exact Hs |].
      split; [| exact H]. apply no_match_in_nil.
    + rewrite (re_search_cons _ _ _ _ Hm). intros Hr.
      destruct (IH Hr) as (k & rest & -> & Hk & H).
      exists (String x k), rest. rewrite string_app_cons.
      split; [reflexivity |]. split; [| exact H].
      intros [| y pre] d post E.
      * rewrite string_app_nil_l in E.
        rewrite <- string_app_cons, E, string_app_assoc in Hm.
        revert Hm. unfold Str.match_here.
        rewrite strip_prefix_app, string_app_cons. simpl.
        destruct (cls d); [discriminate | reflexivity].
      * rewrite string_app_cons in E. injection E as _ E.
        apply (Hk pre d post E).
Qed.

Section LeftmostMatch.
Variables (a b c : ascii) (cls : ascii -> bool).
Hypothesis Hab : Ascii.eqb b a = false.
Hypothesis Hac : Ascii.eqb c a = false.
Hypothesis Ha : cls a = false.

(** No match starts inside a text without matches that the literal
    follows: the literal cannot overlap itself, and its first character
    is not of the class. *)
Lemma match_here_inside x k tail :
  no_match_in (String a (String b (String c ""))) cls (String x k) ->
  Str.match_here (String a (String b (String c ""))) cls
    (String x k ++ String a (String b (String c "")) ++ tail) = None.
Proof.
  intros Hk. unfold Str.match_here.
  rewrite ?string_app_cons, ?string_app_nil_l. cbn [Str.strip_prefix].
  destruct (Ascii.eqb a x) eqn:Ex; [| reflexivity].
  apply Ascii.eqb_eq in Ex as <-.
  destruct k as [| y k];
    rewrite ?string_app_cons, ?string_app_nil_l; cbn [Str.strip_prefix].
  { rewrite Hab. reflexivity. }
  destruct (Ascii.eqb b y) eqn:Ey; [| reflexivity].
  apply Ascii.eqb_eq in Ey as <-.
  destruct k as [| z k];
    rewrite ?string_app_cons, ?string_app_nil_l; cbn [Str.strip_prefix].
  { rewrite Hac. reflexivity. }
  destruct (Ascii.eqb c z) eqn:Ez; [| reflexivity].
  apply Ascii.eqb_eq in Ez as <-.
  destruct k as [| d k];
    rewrite ?string_app_cons, ?string_app_nil_l; cbn [Str.take_while].
  { rewrite Ha. reflexivity. }
  rewrite (Hk "" d k eq_refl). reflexivity.
Qed.

Lemma re_search_leftmost k run rest :
  no_match_in (String a (String b (String c ""))) cls k ->
  Str.is_empty run = false -> all_of cls run = true ->
  ends_run cls rest = true ->
  Str.re_search (String a (String b (String c ""))) cls
    (k ++ String a (String b (String c "")) ++ run ++ rest) = Some run.
Proof.
  intros Hk Hne Hrun Hrest. induction k as [| x k IH].
  - rewrite string_app_nil_l. apply re_search_here, match_here_at_run; assumption.
  - rewrite string_app_cons, re_search_cons.
    + apply IH. eapply no_match_in_tail, Hk.
    + rewrite <- string_app_cons. apply match_here_inside, Hk.
Qed.

End LeftmostMatch.

(** X12: Neither pattern is tied to a key boundary or to the end of the value.
    The depth token is the run of digits after the leftmost [DP=] of INFO
    that a digit follows, wherever it stands and whatever comes before or
    after; the AF token is the run of digits and dots after the leftmost
    [AF=] that a digit or a dot follows.  No row has another token, and a
    row has none exactly when INFO has no such place. *)
Theorem INFO_patterns_take_leftmost_run r (run : string) :
  (extract_DP r = Some run <->
   exists k rest,
     INFO r = k ++ "DP=" ++ run ++ rest
     /\ no_match_in "DP=" Str.is_digit k
     /\ Str.is_empty run = false /\ all_of Str.is_digit run = true
     /\ ends_run Str.is_digit rest = true)
  /\ (extract_AF r = Some run <->
      exists k rest,
        INFO r = k ++ "AF=" ++ run ++ rest
        /\ no_match_in "AF=" is_digit_or_dot k
        /\ Str.is_empty run = false /\ all_of is_digit_or_dot run = true
        /\ ends_run is_digit_or_dot rest = true).
Proof.
  unfold extract_DP, extract_AF. split; split.
  - apply re_search_inv.
  - intros (k & rest & -> & Hk & Hne & Hrun & Hrest).
    apply (re_search_leftmost "D" "P" "="); auto.
  - apply re_search_inv.
  - intros (k & rest & -> & Hk & Hne & Hrun & Hrest).
    apply (re_search_leftmost "A" "F" "="); auto.
Qed.

Lemma INFO_patterns_take_leftmost_run_witness :
  extract_DP (mk_row "chr1" "100" "PASS" "AC=2;AF=0.5;AN=2;DB;ADP=3;DP=50" [])
  = Some "3"
  /\ extract_AF (mk_row "chr1" "100" "PASS" "ID=5;DP=50;AF=1e-05" []) = Some "1"
  /\ exists k rest,
       "AF=0.5,0.1;DP=30" = k ++ "AF=" ++ "0.5" ++ rest
       /\ no_match_in "AF=" is_digit_or_dot k
       /\ Str.is_empty "0.5" = false /\ all_of is_digit_or_dot "0.5" = true
       /\ ends_run is_digit_or_dot rest = true.
Proof.
  split; [| split].
  - apply (proj2 (proj1 (INFO_patterns_take_leftmost_run
                           (mk_row "chr1" "100" "PASS"
                              "AC=2;AF=0.5;AN=2;DB;ADP=3;DP=50" []) "3"))).
    exists "AC=2;AF=0.5;AN=2;DB;A", ";DP=50". split; [reflexivity |].
    split; [apply no_match_in_search; reflexivity |]. repeat split.
  - apply (proj2 (proj2 (INFO_patterns_take_leftmost_run
                           (mk_row "chr1" "100" "PASS" "ID=5;DP=50;AF=1e-05" [])
                           "1"))).
    exists "ID=5;DP=50;", "e-05". split; [reflexivity |].
    split; [apply no_match_in_search; reflexivity |]. repeat split.
  - apply (proj1 (proj2 (INFO_patterns_take_leftmost_run
                           (mk_row "chr1" "100" "PASS" "AF=0.5,0.1;DP=30" [])
                           "0.5"))).
    reflexivity.
Defined.
End Extraction.

(** ** Further properties of the counter *)

Section MoreCounter.
Import zygosity.

Lemma label_positions_notin names label i :
  ~ In label names -> label_positions i names label = [].
Proof.
  revert i; induction names as [| n names IH]; intros i H; simpl; [reflexivity |].
  destruct (String.eqb n label) eqn:E.
  - apply String.eqb_eq in E. destruct H. left. exact E.
  - apply IH. intros Hin. apply H. right. exact Hin.
Qed.

Lemma dropped_columns_subset df name c :
  In c (df_columns (drop_other_samples df name)) -> In c (df_columns df).
Proof.
  unfold df_columns. rewrite !in_app_iff. intros [H | H]; [left; exact H |].
  right. simpl in H. rewrite boolean_index_map in H.
  apply filter_In in H. tauto.
Qed.

(** X13: A sample name that is no column of the table makes the counter raise
    KeyError before anything is counted or printed. *)
Theorem unknown_sample_is_KeyError df (name : string) v :
  Str.is_empty name = false -> ~ In name (df_columns df) ->
  calc_zygosity df (Some name) v = ([], Raise KeyError).
Proof.
  intros Hne Hnot. unfold calc_zygosity, selection, indexed. simpl str_truthy.
  rewrite Hne. simpl negb. cbv iota. simpl default.
  assert (E : getitem (drop_other_samples df name) [name] = Raise KeyError).
  { unfold getitem. cbn [mapM]. rewrite label_positions_notin; [reflexivity |].
    intros H. apply Hnot. eapply dropped_columns_subset, H. }
  rewrite E. reflexivity.
Qed.

Lemma unknown_sample_is_KeyError_witness :
  calc_zygosity demo (Some "SAMPLE3") true = ([], Raise KeyError).
Proof.
  apply (unknown_sample_is_KeyError demo "SAMPLE3" true); [reflexivity |].
  simpl. intros H. repeat (destruct H as [H | H]; [discriminate H |]). exact H.
Defined.



Lemma string_length_app (a b : string) :
  String.length (a ++ b) = (String.length a + String.length b)%nat.
Proof. induction a as [| c a IH]; simpl; [reflexivity | rewrite IH; reflexivity]. Qed.

Lemma string_app_nil_r (a : string) : a ++ "" = a.
Proof.
  induction a as [| c a IH]; [reflexivity |].
  change (String c (a ++ "") = String c a). rewrite IH. reflexivity.
Qed.

Lemma string_length_0 (a : string) : String.length a = 0%nat -> a = "".
Proof. destruct a; [reflexivity | discriminate]. Qed.

(** On a field no longer than the genotype, containment is equality. *)
Lemma contains_short (g f : string) :
  (String.length f <= String.length g)%nat ->
  Str.contains g f = String.eqb f g.
Proof.
  intros Hlen. destruct (String.eqb f g) eqn:E.
  - apply String.eqb_eq in E as ->. apply StrFacts.contains_spec.
    exists "", "". rewrite string_app_nil_r. reflexivity.
  - destruct (Str.contains g f) eqn:Hc; [| reflexivity].
    apply StrFacts.contains_spec in Hc as (pre & post & ->).
    rewrite !string_length_app in Hlen.
    assert (pre = "") as -> by (apply string_length_0; lia).
    assert (post = "") as -> by (apply string_length_0; lia).
    simpl in E. rewrite string_app_nil_r, String.eqb_refl in E. discriminate.
Qed.

(** X15: When every counted GT field has at most three characters, each count is
    the number of cells whose GT field is literally the genotype. *)
Theorem short_GT_fields_counted_literally df sample frame :
  snd (selection df sample) = Ok frame -> short_GT_fields frame ->
  counts_literal_matches df sample.
Proof.
  intros Hsel Hshort df' variants frame' Hret Hsel' g Hg.
  rewrite Hsel in Hsel'. injection Hsel' as <-.
  rewrite calc_zygosity_returned, Hsel in Hret. injection Hret as _ <-.
  assert (Hcount : cells_where (genotype_in g) frame
                   = cells_where (fun x => String.eqb (first_field x) g) frame).
  { unfold cells_where. f_equal. f_equal. apply filter_ext_in. intros x Hx.
    apply in_concat in Hx as (col & Hcol & Hx).
    unfold short_GT_fields in Hshort. rewrite Forall_forall in Hshort.
    specialize (Hshort col (proj2 (list_elem_of_In _ _) Hcol)).
    rewrite Forall_forall in Hshort.
    specialize (Hshort x (proj2 (list_elem_of_In _ _) Hx)).
    unfold genotype_in. apply contains_short.
    destruct Hg as [<- | [<- | [<- | [<- | []]]]]; exact Hshort. }
  rewrite <- Hcount. unfold key.
  destruct Hg as [<- | [<- | [<- | [<- | []]]]]; simpl append;
    rewrite ?lookup_insert_ne by discriminate;
    rewrite lookup_insert_eq; reflexivity.
Qed.

Lemma short_GT_fields_counted_literally_witness :
  counts_literal_matches four_calls None.
Proof.
  apply (short_GT_fields_counted_literally four_calls None
           [["0/1:30,10:40"; "1/1:0,40:40"; "0/0:40,0:40"; "./.:0,0:0"]]).
  - reflexivity.
  - repeat constructor.
Defined.

Lemma filter_length_le {A} (f : A -> bool) (l : list A) :
  (length (List.filter f l) <= length l)%nat.
Proof.
  induction l as [| x l IH]; simpl; [lia |]. destruct (f x); simpl; lia.
Qed.

(** X16: No count exceeds the number of counted cells, which is the number of
    rows times the number of counted columns. *)
Theorem counts_bounded_by_cells df sample v df' (variants : gmap string Z) frame :
  returned (calc_zygosity df sample v) = Ok (df', variants) ->
  snd (selection df sample) = Ok frame ->
  forall k n, variants !! k = Some n ->
    0 <= n <= Z.of_nat (length (rows df) * length frame).
Proof.
  intros Hret Hsel k n.
  rewrite calc_zygosity_returned, Hsel in Hret. injection Hret as _ <-.
  assert (Hb : forall f, 0 <= cells_where f frame
                         <= Z.of_nat (length (rows df) * length frame)).
  { intros f. unfold cells_where. split; [lia |].
    apply inj_le. etransitivity; [apply filter_length_le |].
    rewrite (selection_shape df sample frame Hsel). lia. }
  rewrite !lookup_insert, lookup_empty.
  repeat case_decide; try discriminate; intros [= <-]; apply Hb.
Qed.

Lemma counts_bounded_by_cells_witness :
  snd (selection demo None)
  = Ok [["0/1:30,10"; "0/0:40,0"; "1/0:3,9"]; ["1/1:0,40"; "./.:0,0"; "0/1:4,4"]]
  /\ forall k n,
       (<[key "0/0" := 1]> (<[key "0/1" := 2]> (<[key "1/0" := 1]>
          (<[key "1/1" := 1]> (∅ : gmap string Z))))) !! k = Some n ->
       0 <= n <= Z.of_nat (length (rows demo) * 2).
Proof.
  split; [reflexivity |].
  apply (counts_bounded_by_cells demo None false demo _
           [["0/1:30,10"; "0/0:40,0"; "1/0:3,9"]; ["1/1:0,40"; "./.:0,0"; "0/1:4,4"]]);
    reflexivity.
Defined.
End MoreCounter.

(** ** The pipeline *)

Section Pipeline.
Import filteration zygosity.

Lemma returned_bind_ext {A B} (m1 m2 : M A) (f1 f2 : A -> M B) :
  returned m1 = returned m2 ->
  (forall a, returned (f1 a) = returned (f2 a)) ->
  returned (m1 ≫= f1) = returned (m2 ≫= f2).
Proof.
  intros Hm Hf. rewrite !returned_bind, Hm.
  destruct (returned m2); [apply Hf | reflexivity].
Qed.

Lemma returned_bind_Ok_inv {A B} (m : M A) (f : A -> M B) b :
  returned (m ≫= f) = Ok b ->
  exists a, returned m = Ok a /\ returned (f a) = Ok b.
Proof.
  rewrite returned_bind. destruct (returned m) as [a | e]; [eauto | discriminate].
Qed.

Lemma returned_except {A} (m h : M A) :
  returned (except_ValueError m h) =
  match returned m with
  | Raise ValueError => returned h
  | r => r
  end.
Proof.
  destruct m as [l [a | []]]; simpl; try reflexivity.
  unfold except_ValueError. destruct h; reflexivity.
Qed.

Lemma filter_af_verbosity df t v v' :
  returned (filter_af df t v) = returned (filter_af df t v').
Proof.
  unfold filter_af. destruct (Qle_bool 0 t && Qle_bool t 1); [| reflexivity].
  apply returned_bind_ext; [reflexivity |]. intros af.
  rewrite !returned_after_prints by auto 10 with prints. reflexivity.
Qed.

Lemma filter_dp_verbosity df t v v' :
  returned (filter_dp df t v) = returned (filter_dp df t v').
Proof. rewrite !filter_dp_returned. reflexivity. Qed.

Lemma filter_chr_verbosity df p v v' :
  returned (filter_chr df p v) = returned (filter_chr df p v').
Proof.
  unfold filter_chr. apply returned_bind_ext; [reflexivity |]. intros chr.
  rewrite !returned_after_prints by auto 10 with prints. reflexivity.
Qed.

Lemma filter_position_verbosity df s v v' :
  returned (filter_position df s v) = returned (filter_position df s v').
Proof.
  unfold filter_position. rewrite !returned_except.
  assert (E : forall w,
    returned (selected_pos_range ← lift (parse_range s);
              match selected_pos_range with
              | [lo; hi] =>
                  pos ← lift (mapM (fun r => astype_int (Some (POS r))) (rows df));
                  (if df_empty (df_select df (map (fun p => (p >? lo) && (p <? hi)) pos))
                   then print (OStr "WARNING: No rows exist in the VCF file for selected position range")
                   else when w (
                     print (ORange "position range = " selected_pos_range);;
                     print (OStr "The output of filtration according to the position range is shown here: ");;
                     print (OTable (df_select df (map (fun p => (p >? lo) && (p <? hi)) pos)));;
                     print (OStr blank_lines)));;
                  mret (df_select df (map (fun p => (p >? lo) && (p <? hi)) pos))
              | _ =>
                  print (OStr "WARNING: the position range is wrong! Therefore, this filtration does not apply!");;
                  mret df
              end)
    = match parse_range s with
      | Ok [lo; hi] =>
          match mapM (fun r => astype_int (Some (POS r))) (rows df) with
          | Ok pos => Ok (df_select df (map (fun p => (p >? lo) && (p <? hi)) pos))
          | Raise e => Raise e
          end
      | Ok _ => Ok df
      | Raise e => Raise e
      end).
  { intros w. rewrite returned_bind, returned_lift.
    destruct (parse_range s) as [l | e]; [| reflexivity].
    destruct l as [| lo [| hi [| ? ?]]]; try reflexivity.
    rewrite returned_bind, returned_lift.
    destruct (mapM _ (rows df)); [| reflexivity].
    rewrite returned_after_prints by auto 10 with prints. reflexivity. }
  rewrite (E v), (E v'). reflexivity.
Qed.

Lemma include_filter_verbosity df val v v' :
  returned (include_filter df val v) = returned (include_filter df val v').
Proof. rewrite !include_filter_returned. reflexivity. Qed.

Lemma exclude_filter_verbosity df val v v' :
  returned (exclude_filter df val v) = returned (exclude_filter df val v').
Proof. rewrite !exclude_filter_returned. reflexivity. Qed.

Lemma calc_zygosity_verbosity df sample v v' :
  returned (calc_zygosity df sample v) = returned (calc_zygosity df sample v').
Proof. rewrite !calc_zygosity_returned. reflexivity. Qed.

(** X17: The verbosity flag changes what is printed, never what is computed:
    each filter, the counter and the whole pipeline return the same value,
    or raise the same exception, with the flag on and off. *)
Theorem verbosity_does_not_change_results
  df sample depth af chromosome position_range include_filter exclude_filter
  (t : Q) (p : pyval) (s val : string) :
  returned (filter_af df t true) = returned (filter_af df t false)
  /\ returned (filter_dp df depth true) = returned (filter_dp df depth false)
  /\ returned (filter_chr df p true) = returned (filter_chr df p false)
  /\ returned (filter_position df s true) = returned (filter_position df s false)
  /\ returned (filteration.include_filter df val true)
     = returned (filteration.include_filter df val false)
  /\ returned (filteration.exclude_filter df val true)
     = returned (filteration.exclude_filter df val false)
  /\ returned (calc_zygosity df sample true) = returned (calc_zygosity df sample false)
  /\ returned (process_vcf_file df sample depth af chromosome position_range
                 include_filter exclude_filter true)
     = returned (process_vcf_file df sample depth af chromosome position_range
                   include_filter exclude_filter false).
Proof.
  split; [apply filter_af_verbosity |].
  split; [apply filter_dp_verbosity |].
  split; [apply filter_chr_verbosity |].
  split; [apply filter_position_verbosity |].
  split; [apply include_filter_verbosity |].
  split; [apply exclude_filter_verbosity |].
  split; [apply calc_zygosity_verbosity |].
  unfold process_vcf_file.
  apply returned_bind_ext; [apply filter_dp_verbosity | intros d1].
  apply returned_bind_ext;
    [destruct (float_truthy af); [apply filter_af_verbosity | reflexivity]
    | intros d2].
  apply returned_bind_ext;
    [destruct (str_truthy chromosome); [apply filter_chr_verbosity | reflexivity]
    | intros d3].
  apply returned_bind_ext;
    [destruct (str_truthy position_range);
       [apply filter_position_verbosity | reflexivity]
    | intros d4].
  apply returned_bind_ext;
    [destruct (str_truthy include_filter);
       [apply include_filter_verbosity | reflexivity]
    | intros d5].
  apply returned_bind_ext;
    [destruct (str_truthy exclude_filter);
       [apply exclude_filter_verbosity | reflexivity]
    | intros d6].
  apply calc_zygosity_verbosity.
Qed.
End Pipeline.

Section PipelineOutput.
Import filteration zygosity.

Lemma quiet_bind {A B} (m : M A) (f : A -> M B) :
  quiet m -> (forall a, quiet (f a)) -> quiet (m ≫= f).
Proof.
  unfold quiet. intros Hm Hf. rewrite output_bind. apply Forall_app. split; [exact Hm |].
  destruct (returned m); [apply Hf | constructor].
Qed.

Lemma quiet_print s :
  existsb (String.eqb s) notices = true -> quiet (print (OStr s)).
Proof. intros H. constructor; [exact H | constructor]. Qed.

Lemma quiet_mret {A} (a : A) : quiet (mret a : M A).
Proof. constructor. Qed.

Lemma quiet_lift {A} (r : result A) : quiet (lift r).
Proof. constructor. Qed.

Lemma quiet_when_off m : quiet (when false m).
Proof. constructor. Qed.

Lemma quiet_when b m : quiet m -> quiet (when b m).
Proof. destruct b; [trivial | constructor]. Qed.

Lemma quiet_except {A} (m h : M A) :
  quiet m -> quiet h -> quiet (except_ValueError m h).
Proof.
  unfold quiet. destruct m as [l [a | []]]; simpl; auto.
  intros Hl Hh. unfold except_ValueError. destruct h as [l' r]. simpl in *.
  apply Forall_app. split; assumption.
Qed.

Ltac quiet_step :=
  first [ apply quiet_print; reflexivity | apply quiet_mret | apply quiet_lift
        | apply quiet_when_off
        | apply quiet_when
        | apply quiet_except
        | apply quiet_bind; [| intros ?]
        | match goal with
          | |- quiet (if ?b then _ else _) => destruct b
          | |- quiet (match ?l with [] => _ | _ :: _ => _ end) => destruct l
          end ].

Lemma quiet_filter_dp df t : quiet (filter_dp df t false).
Proof. unfold filter_dp, substitute_default. repeat quiet_step. Qed.

Lemma quiet_filter_af df t : quiet (filter_af df t false).
Proof. unfold filter_af. repeat quiet_step. Qed.

Lemma quiet_filter_chr df p : quiet (filter_chr df p false).
Proof. unfold filter_chr. repeat quiet_step. Qed.

Lemma quiet_filter_position df s : quiet (filter_position df s false).
Proof. unfold filter_position. repeat quiet_step. Qed.

Lemma quiet_include_filter df val : quiet (filteration.include_filter df val false).
Proof. unfold filteration.include_filter. repeat quiet_step. Qed.

Lemma quiet_exclude_filter df val : quiet (filteration.exclude_filter df val false).
Proof. unfold filteration.exclude_filter. repeat quiet_step. Qed.

Lemma quiet_calc_zygosity df sample : quiet (calc_zygosity df sample false).
Proof.
  unfold calc_zygosity, count. destruct (selection df sample) as [d frame].
  repeat quiet_step.
Qed.

End PipelineOutput.

Section PipelineTables.
Import filteration zygosity.

Lemma filter_af_selection df t v d :
  returned (filter_af df t v) = Ok d -> selection_of d df.
Proof.
  intros Hret. destruct (Qle_bool 0 t && Qle_bool t 1) eqn:E.
  - apply andb_prop in E as [H0 H1]. apply Qle_bool_iff in H0, H1.
    destruct (filter_af_Ok_inv df t v d (conj H0 H1) Hret) as [_ ->].
    apply keep_rows_selection.
  - unfold filter_af in Hret. rewrite E in Hret. injection Hret as <-.
    apply selection_of_refl.
Qed.

Lemma filter_chr_selection df p v d :
  returned (filter_chr df p v) = Ok d -> selection_of d df.
Proof.
  intros [_ ->]%filter_chr_Ok_inv. apply keep_rows_selection.
Qed.

Lemma selection_of_trans d3 d2 d1 :
  selection_of d3 d2 -> selection_of d2 d1 -> selection_of d3 d1.
Proof.
  intros [Hc1 Hr1] [Hc2 Hr2]. split; [congruence |].
  etransitivity; eauto.
Qed.

(** The optional stages of the chain, each behind its guard. *)
Lemma optional_stage_selection (b : bool) (f : M DataFrame) d d' :
  (returned f = Ok d' -> selection_of d' d) ->
  returned (if b then f else mret d) = Ok d' -> selection_of d' d.
Proof.
  destruct b; [auto |]. intros _ [= <-]. apply selection_of_refl.
Qed.

(** What reaches the counter: the table after the depth filter and a
    selection of it. *)
Lemma pipeline_inv
  df sample depth af chromosome position_range include_filter exclude_filter v res :
  returned (process_vcf_file df sample depth af chromosome position_range
              include_filter exclude_filter v) = Ok res ->
  exists d1 d3 d6,
    returned (filter_dp df depth v) = Ok d1
    /\ selection_of d3 d1
    /\ (str_truthy chromosome = true ->
        exists d2, returned (filter_chr d2 (PyStr (default "" chromosome)) v) = Ok d3)
    /\ selection_of d6 d3
    /\ returned (calc_zygosity d6 sample v) = Ok res.
Proof.
  unfold process_vcf_file.
  intros (d1 & H1 & H)%returned_bind_Ok_inv.
  apply returned_bind_Ok_inv in H as (d2 & H2 & H).
  apply returned_bind_Ok_inv in H as (d3 & H3 & H).
  apply returned_bind_Ok_inv in H as (d4 & H4 & H).
  apply returned_bind_Ok_inv in H as (d5 & H5 & H).
  apply returned_bind_Ok_inv in H as (d6 & H6 & H).
  exists d1, d3, d6. split; [exact H1 |].
  apply optional_stage_selection in H2; [| apply filter_af_selection].
  pose proof H3 as H3'.
  apply optional_stage_selection in H3'; [| apply filter_chr_selection].
  apply optional_stage_selection in H4; [| apply filter_position_selection].
  apply optional_stage_selection in H5;
    [| intros E; rewrite include_filter_returned in E; injection E as <-;
       apply keep_rows_selection].
  apply optional_stage_selection in H6;
    [| intros E; rewrite exclude_filter_returned in E; injection E as <-;
       apply keep_rows_selection].
  split; [eapply selection_of_trans; eauto |].
  split; [intros Hc; rewrite Hc in H3; eauto |].
  split; [| exact H].
  eapply selection_of_trans; [exact H6 |].
  eapply selection_of_trans; [exact H5 | exact H4].
Qed.

Lemma selection_rows_INFO df sample r :
  r ∈ rows (fst (selection df sample)) ->
  exists r0, r0 ∈ rows df /\ INFO r = INFO r0.
Proof.
  rewrite selection_fst. unfold indexed.
  destruct (str_truthy sample); cbn [fst]; [| eauto].
  simpl. intros Hr. apply list_elem_of_In, in_map_iff in Hr as (r0 & <- & Hr0).
  exists r0. split; [apply list_elem_of_In, Hr0 | reflexivity].
Qed.

Lemma calc_zygosity_table df sample v d variants :
  returned (calc_zygosity df sample v) = Ok (d, variants) ->
  d = fst (selection df sample).
Proof.
  rewrite calc_zygosity_returned.
  destruct (snd (selection df sample)); [| discriminate]. congruence.
Qed.

Lemma dp_gt_INFO t r r0 : INFO r = INFO r0 -> dp_gt t r = dp_gt t r0.
Proof. unfold dp_gt, dp_value, extract_DP. intros ->. reflexivity. Qed.

(** X19: The depth filter is applied on every run: each row of the table that
    the pipeline hands on has a DP above a positive threshold, which is 10
    when no depth is given. *)
Theorem pipeline_rows_pass_depth
  df sample depth af chromosome position_range include_filter exclude_filter v
  d variants :
  returned (process_vcf_file df sample depth af chromosome position_range
              include_filter exclude_filter v) = Ok (d, variants) ->
  exists thr, (0 < thr)%Q
    /\ (depth = None -> thr = 10%Q)
    /\ forall r, r ∈ rows d -> dp_gt thr r = true.
Proof.
  intros (d1 & d3 & d6 & H1 & S3 & _ & S6 & Hc)%pipeline_inv.
  destruct (substitute_default_returns depth) as (thr & Hthr & Hpos).
  exists (num_Q thr). split; [exact Hpos |]. split.
  - intros ->. rewrite substitute_default_absent in Hthr.
    injection Hthr as <-. reflexivity.
  - rewrite filter_dp_returned, Hthr in H1. injection H1 as <-.
    intros r Hr. apply calc_zygosity_table in Hc as ->.
    apply selection_rows_INFO in Hr as (r0 & Hr0 & HI).
    rewrite (dp_gt_INFO _ _ _ HI).
    destruct S6 as [_ S6]. destruct S3 as [_ S3].
    apply (sublist_subseteq _ _ S6) in Hr0.
    apply (sublist_subseteq _ _ S3) in Hr0.
    simpl in Hr0. apply list_elem_of_In, filter_In in Hr0. tauto.
Qed.

Lemma pipeline_rows_pass_depth_witness :
  exists thr, (0 < thr)%Q
    /\ ((None : option Q) = None -> thr = 10%Q)
    /\ forall r,
         r ∈ [mk_row "chr2" "5000" "PASS" "DP=12;AF=0.9" ["GT:AD"; "1/0:3,9"; "0/1:4,4"]] ->
         dp_gt thr r = true.
Proof.
  apply (pipeline_rows_pass_depth demo None None (Some (1 # 2)%Q) None None
           (Some "PASS") None false
           {| columns := ["FORMAT"; "SAMPLE1"; "SAMPLE2"];
              rows := [mk_row "chr2" "5000" "PASS" "DP=12;AF=0.9" ["GT:AD"; "1/0:3,9"; "0/1:4,4"]] |}
           (<[key "0/0" := 0]> (<[key "0/1" := 1]> (<[key "1/0" := 1]>
              (<[key "1/1" := 0]> ∅))))).
  reflexivity.
Defined.

Lemma sublist_of_nil {A} (l : list A) : l `sublist_of` [] -> l = [].
Proof. apply sublist_nil_r. Qed.

Lemma calc_zygosity_no_rows df sample v d variants :
  rows df = [] ->
  returned (calc_zygosity df sample v) = Ok (d, variants) ->
  rows d = [] /\ variants = zero_counts.
Proof.
  intros Hrows Hret. pose proof (selection_rows_empty df sample Hrows) as He.
  rewrite calc_zygosity_returned in Hret.
  destruct (snd (selection df sample)) as [frame |] eqn:Hsel; [| discriminate].
  injection Hret as <- <-. split; [exact He |].
  pose proof (selection_no_rows df sample frame Hrows Hsel) as Hnil.
  rewrite !(cells_where_nil _ _ Hnil). reflexivity.
Qed.

(** X20: From the command line the chromosome is a string, so a run with a
    chromosome parameter that returns at all returns a table without rows
    and a count of 0 for every genotype. *)
Theorem pipeline_with_chromosome_is_empty
  df sample depth af chromosome position_range include_filter exclude_filter v
  d variants :
  str_truthy chromosome = true ->
  returned (process_vcf_file df sample depth af chromosome position_range
              include_filter exclude_filter v) = Ok (d, variants) ->
  rows d = [] /\ variants = zero_counts.
Proof.
  intros Hchr (d1 & d3 & d6 & _ & _ & H3 & S6 & Hc)%pipeline_inv.
  destruct (H3 Hchr) as (d2 & Hd3).
  apply filter_chr_Ok_inv in Hd3 as [_ ->].
  assert (E : rows d6 = []).
  { destruct S6 as [_ S6]. apply sublist_of_nil. revert S6. simpl.
    rewrite filter_none. trivial. }
  eapply calc_zygosity_no_rows; eauto.
Qed.

Lemma pipeline_with_chromosome_is_empty_witness :
  (str_truthy (Some "2") = true
   /\ returned (process_vcf_file demo None None None (Some "2") None None None false)
      = Ok ({| columns := ["FORMAT"; "SAMPLE1"; "SAMPLE2"]; rows := [] |}, zero_counts))
  /\ rows {| columns := ["FORMAT"; "SAMPLE1"; "SAMPLE2"]; rows := [] |} = []
  /\ zero_counts = zero_counts.
Proof.
  assert (H : returned (process_vcf_file demo None None None (Some "2") None
                          None None false)
              = Ok ({| columns := ["FORMAT"; "SAMPLE1"; "SAMPLE2"]; rows := [] |},
                    zero_counts)) by reflexivity.
  split; [split; [reflexivity | exact H] |].
  apply (pipeline_with_chromosome_is_empty demo None None None (Some "2") None
           None None false _ _ eq_refl H).
Defined.

Lemma keep_rows_no_rows p df : rows df = [] -> keep_rows p df = df.
Proof.
  intros H. unfold keep_rows. rewrite H. simpl. rewrite <- H. apply df_eta.
Qed.

Lemma no_rows_stage (b : bool) (f : M DataFrame) d :
  returned f = Ok d -> returned (if b then f else mret d) = Ok d.
Proof. destruct b; [trivial | reflexivity]. Qed.


End PipelineTables.

(** ** Where the output files go *)

Section OutputFiles.
Import os_path.

Lemma count_char_app c (a b : string) :
  count_char c (a ++ b) = (count_char c a + count_char c b)%nat.
Proof.
  induction a as [| x a IH]; [reflexivity |].
  rewrite string_app_cons. simpl. rewrite IH. destruct (Ascii.eqb x c); reflexivity.
Qed.

Lemma split_no_slash p :
  count_char "/" p = 0%nat -> split_at_last_slash p = ("", p).
Proof.
  induction p as [| c p IH]; simpl; [reflexivity |].
  destruct (Ascii.eqb c "/") eqn:E; [discriminate |]. intros Hp.
  rewrite (IH Hp), Hp. reflexivity.
Qed.

Lemma split_dir_name h name :
  count_char "/" name = 0%nat ->
  split_at_last_slash (h ++ "/" ++ name) = (h ++ "/", name).
Proof.
  intros Hn. induction h as [| c h IH].
  - change ("" ++ "/" ++ name) with (String "/" name). simpl.
    rewrite (split_no_slash name Hn), Hn. reflexivity.
  - change (String c h ++ "/" ++ name) with (String c (h ++ "/" ++ name)).
    change (String c h ++ "/") with (String c (h ++ "/")).
    cbn [split_at_last_slash]. rewrite IH.
    rewrite count_char_app. change (count_char "/" ("/" ++ name))
      with (S (count_char "/" name)).
    replace (0 <? count_char "/" h + S (count_char "/" name))%nat with true
      by (symmetry; apply Nat.ltb_lt; lia).
    reflexivity.
Qed.

Lemma is_empty_app_cons a c b : Str.is_empty (a ++ String c b) = false.
Proof. destruct a; reflexivity. Qed.

Lemma rstrip_slash_dir d0 c :
  Ascii.eqb c "/" = false ->
  rstrip_slash ((d0 ++ String c "") ++ "/") = d0 ++ String c "".
Proof.
  intros Hc. induction d0 as [| x d0 IH].
  - simpl. rewrite Hc. reflexivity.
  - rewrite !string_app_cons. cbn [rstrip_slash]. rewrite IH.
    rewrite is_empty_app_cons, andb_false_r. reflexivity.
Qed.

Lemma not_all_slashes d0 c :
  Ascii.eqb c "/" = false ->
  all_of (fun x => Ascii.eqb x "/") ((d0 ++ String c "") ++ "/") = false.
Proof.
  intros Hc. induction d0 as [| x d0 IH].
  - simpl. rewrite Hc. reflexivity.
  - rewrite !string_app_cons. cbn [all_of]. rewrite IH. apply andb_false_r.
Qed.

Lemma dirname_dir_name d0 c name :
  Ascii.eqb c "/" = false -> count_char "/" name = 0%nat ->
  dirname ((d0 ++ String c "") ++ "/" ++ name) = d0 ++ String c ""
  /\ basename ((d0 ++ String c "") ++ "/" ++ name) = name.
Proof.
  intros Hc Hn. unfold dirname, basename.
  rewrite (split_dir_name _ name Hn). cbn [fst snd].
  rewrite (not_all_slashes d0 c Hc), (rstrip_slash_dir d0 c Hc).
  replace (Str.is_empty ((d0 ++ String c "") ++ "/")) with false
    by (destruct d0; reflexivity).
  split; reflexivity.
Qed.

Lemma before_vcf base rest :
  count_char "." base = 0%nat -> before ".vcf" (base ++ ".vcf" ++ rest) = base.
Proof.
  induction base as [| x base IH]; intros Hb.
  - reflexivity.
  - simpl in Hb. destruct (Ascii.eqb x ".") eqn:E; [discriminate |].
    rewrite string_app_cons. cbn [before Str.startswith].
    rewrite Ascii.eqb_sym, E. cbn [andb]. rewrite (IH Hb). reflexivity.
Qed.

(** X22: For an input [dir/base.vcf...] the two files are written into [dir]
    and named after [base], the text before the first [.vcf]: so
    [base.vcf] and [base.vcf.gz] give the same two files. *)
Theorem outputs_next_to_input (d0 base rest : string) (c : ascii) :
  Ascii.eqb c "/" = false ->
  count_char "/" base = 0%nat -> count_char "." base = 0%nat ->
  count_char "/" rest = 0%nat ->
  let dir := d0 ++ String c "" in
  let path := dir ++ "/" ++ base ++ ".vcf" ++ rest in
  output_files path "csv"
  = Some (dir ++ "/" ++ base ++ ".filtered.csv", dir ++ "/" ++ base ++ ".zygosity.csv")
  /\ output_files path "json"
     = Some (dir ++ "/" ++ base ++ ".filtered.json", dir ++ "/" ++ base ++ ".zygosity.json").
Proof.
  intros Hc Hb Hdot Hr dir path.
  assert (Hn : count_char "/" (base ++ ".vcf" ++ rest) = 0%nat).
  { rewrite !count_char_app, Hb, Hr. reflexivity. }
  destruct (dirname_dir_name d0 c _ Hc Hn) as [Hd Hbn].
  unfold output_files, path, dir. rewrite Hd, Hbn, (before_vcf base rest Hdot).
  split; reflexivity.
Qed.

Lemma outputs_next_to_input_witness :
  output_files "data/run1/sample.vcf.gz" "csv"
  = Some ("data/run1/sample.filtered.csv", "data/run1/sample.zygosity.csv")
  /\ output_files "data/run1/sample.vcf.gz" "json"
     = Some ("data/run1/sample.filtered.json", "data/run1/sample.zygosity.json").
Proof.
  apply (outputs_next_to_input "data/run" "sample" ".gz" "1"); reflexivity.
Defined.

(** X23: For an input path without a directory part the directory name is
    empty, and the two files are written directly under the root
    directory, not next to the input. *)
Theorem bare_file_name_writes_under_root (p : string) :
  count_char "/" p = 0%nat ->
  output_files p "csv"
  = Some ("/" ++ before ".vcf" p ++ ".filtered.csv",
          "/" ++ before ".vcf" p ++ ".zygosity.csv")
  /\ output_files p "json"
     = Some ("/" ++ before ".vcf" p ++ ".filtered.json",
             "/" ++ before ".vcf" p ++ ".zygosity.json").
Proof.
  intros Hp. unfold output_files, dirname, basename.
  rewrite (split_no_slash p Hp). split; reflexivity.
Qed.

Lemma bare_file_name_writes_under_root_witness :
  output_files "sample.vcf" "csv"
  = Some ("/sample.filtered.csv", "/sample.zygosity.csv")
  /\ output_files "sample.vcf" "json"
     = Some ("/sample.filtered.json", "/sample.zygosity.json").
Proof.
  apply (bare_file_name_writes_under_root "sample.vcf"). reflexivity.
Defined.
End OutputFiles.

(** ** The allele-frequency threshold, and the warnings *)

Section Warnings.
Import filteration.

Lemma af_gt_weaken t1 t2 r :
  (t1 <= t2)%Q -> af_gt t2 r = true -> af_gt t1 r = true.
Proof.
  unfold af_gt. intros Hle (q & Hq & Hlt)%float_gt_true.
  apply float_gt_true. exists q. split; [exact Hq |].
  eapply Qle_lt_trans; eauto.
Qed.

(** X24: Raising the allele-frequency threshold within [0,1] only removes rows:
    when the filter returns at [t1], filtering its result at [t2 >= t1] is
    filtering the input at [t2]. *)
Theorem filter_af_tightens df t1 t2 v d1 :
  (0 <= t1)%Q -> (t1 <= t2)%Q -> (t2 <= 1)%Q ->
  returned (filter_af df t1 v) = Ok d1 ->
  exists d2,
    returned (filter_af df t2 v) = Ok d2
    /\ returned (filter_af d1 t2 v) = Ok d2
    /\ selection_of d2 d1.
Proof.
  intros H0 Hle H1 Hret.
  assert (R1 : (0 <= t1 /\ t1 <= 1)%Q) by (split; [| eapply Qle_trans]; eauto).
  assert (R2 : (0 <= t2 /\ t2 <= 1)%Q) by (split; [eapply Qle_trans |]; eauto).
  destruct (filter_af_Ok_inv df t1 v d1 R1 Hret) as [Hc ->].
  assert (E : keep_rows (af_gt t2) (keep_rows (af_gt t1) df)
              = keep_rows (af_gt t2) df).
  { unfold keep_rows; simpl. f_equal.
    apply filter_implied. intros r. apply af_gt_weaken, Hle. }
  exists (keep_rows (af_gt t2) df).
  split; [apply filter_af_in_range; assumption |]. split.
  - rewrite filter_af_in_range; [f_equal; exact E | exact R2 |].
    apply Forall_filter_keeps, Hc.
  - rewrite <- E. apply keep_rows_selection.
Qed.

Lemma filter_af_tightens_witness :
  exists d2,
    returned (filter_af demo (9 # 10) false) = Ok d2
    /\ returned (filter_af (keep_rows (af_gt (1 # 10)) demo) (9 # 10) false) = Ok d2
    /\ selection_of d2 (keep_rows (af_gt (1 # 10)) demo).
Proof.
  apply (filter_af_tightens demo (1 # 10) (9 # 10) false);
    try (unfold Qle; simpl; lia).
  reflexivity.
Defined.

Lemma lift_Ok_bind {A B} (a : A) (f : A -> M B) : (lift (Ok a) ≫= f) = f a.
Proof. unfold lift, mbind, M_bind. destruct (f a); reflexivity. Qed.

Lemma announce (d : DataFrame) (w : string) (verbose : M unit) :
  ((if df_empty d then print (OStr w) else when false verbose);; mret d)
  = (no_rows_warning w d, Ok d).
Proof. unfold no_rows_warning. destruct (df_empty d); reflexivity. Qed.

Lemma lift_Raise_bind {A B} (e : exn) (f : A -> M B) :
  (lift (Raise e) ≫= f) = ([], Raise e).
Proof. reflexivity. Qed.

Lemma default_notice_output t :
  output (substitute_default t) = default_notice t.
Proof.
  unfold substitute_default, default_notice, dp_falsy, dp_negative.
  destruct t as [q |]; [| reflexivity].
  destruct (Qeq_bool q 0); [reflexivity |].
  destruct (Qgtb 0 q); reflexivity.
Qed.

Lemma parse_range_raises s e : parse_range s = Raise e -> e = ValueError.
Proof.
  unfold parse_range. generalize (Str.split "-" s). intros l.
  induction l as [| x l IH]; simpl; [discriminate |].
  destruct (Str.py_int (Str.strip x)); [| congruence].
  destruct (mapM _ l); [discriminate |]. intros [= <-]. apply IH. reflexivity.
Qed.

Lemma POS_column_filter df lo hi pos :
  mapM pos_value (rows df) = Ok pos ->
  df_select df (map (fun p => (p >? lo) && (p <? hi)) pos)
  = keep_rows (pos_between lo hi) df.
Proof.
  intros Hm. pose proof (mapM_converts _ _ _ Hm) as Hc.
  rewrite (mapM_total pos_value 0 _ Hc) in Hm. injection Hm as <-.
  unfold df_select, keep_rows. rewrite boolean_index_map_map. f_equal.
  apply filter_ext_in. intros r Hr.
  rewrite Forall_forall in Hc. destruct (Hc r) as [z Hz].
  { apply list_elem_of_In, Hr. }
  unfold pos_between. rewrite Hz. simpl. rewrite Z.gtb_ltb. reflexivity.
Qed.



Lemma absent_FILTER_value_witness :
  (exists rest,
      include_filter demo "q10" false
      = (OStr "WARNING: This value does not exist in the FILTER columns for including it!" :: rest,
         Ok {| columns := columns demo; rows := [] |}))
  /\ (exists rest,
      exclude_filter demo "q10" false
      = (OStr "WARNING: This value does not exist in the FILTER columns for excluding it!" :: rest,
         Ok demo)).
Proof. apply (absent_FILTER_value demo "q10" false). reflexivity. Defined.
End Warnings.
